(** * An AI-driven firewall: policy engine, decision composition, policy store

    A shallow embedding of [models.py], [services/storage.py],
    [services/policy_engine.py] and the handlers of [main.py], followed by the
    properties of the policy evaluation engine and of the decision that
    [submit_connection] composes from the matched policy and the anomaly score.

    Conventions of the embedding.
    - A Python [str] is a [string]; one [ascii] stands for one code point, so
      the model covers text whose code points are below 256.
    - A Python [int] is a [Z].  Conversions between [int] and [str] are
      modelled without the interpreter's optional limit on the number of
      digits.
    - A Python [float] is a primitive binary64 [float].
    - An exception that the code catches becomes [None] in an [option]; an
      exception that leaves a function becomes [Raise] in a [result]. *)

From Stdlib Require Import ZArith String Ascii List Bool Lia.
From Stdlib Require Import DecimalString DecimalPos DecimalZ Floats.
From stdpp Require Import base option list strings.

Set Warnings "-inexact-float".
Local Open Scope Z_scope.
Local Open Scope string_scope.

(** ** Results of calls that may raise *)

Inductive exn : Type :=
| TypeError.

Inductive result (A : Type) : Type :=
| Ok (a : A)
| Raise (e : exn).

Arguments Ok {A} a.
Arguments Raise {A} e.

#[global] Instance exn_eq_dec : EqDecision exn.
Proof. solve_decision. Defined.

#[global] Instance result_eq_dec {A : Type} `{EqDecision A} : EqDecision (result A).
Proof. solve_decision. Defined.

#[global] Instance result_ret : MRet result := fun A a => Ok a.

#[global] Instance result_bind : MBind result := fun A B k m =>
  match m with
  | Ok a => k a
  | Raise e => Raise e
  end.

(** ** Python strings *)

Module PyStr.

(** [str.split(".")]: the pieces between the dots, the empty ones included;
    the result is never the empty list. *)
Fixpoint split_dot (s : string) : list string :=
  match s with
  | EmptyString => [EmptyString]
  | String c rest =>
      if Ascii.eqb c "."%char then EmptyString :: split_dot rest
      else match split_dot rest with
           | [] => [String c EmptyString]
           | piece :: pieces => String c piece :: pieces
           end
  end.

(** ["." in s] *)
Fixpoint contains_dot (s : string) : bool :=
  match s with
  | EmptyString => false
  | String c rest => Ascii.eqb c "."%char || contains_dot rest
  end.

(** [str(n)] for an [int]. *)
Definition of_int (n : Z) : string := NilZero.string_of_int (Z.to_int n).

(** The characters [int()] skips around the number: tab to carriage
    return and the space, and of the code points from 128 on the two that
    are white space, U+0085 and U+00A0. *)
Definition is_space (c : ascii) : bool :=
  let n := nat_of_ascii c in
  ((9 <=? n)%nat && (n <=? 13)%nat) || (n =? 32)%nat
  || (n =? 133)%nat || (n =? 160)%nat.

Definition digit_value (c : ascii) : option Z :=
  let n := nat_of_ascii c in
  if ((48 <=? n)%nat && (n <=? 57)%nat) then Some (Z.of_nat n - 48) else None.

Fixpoint skip_spaces (s : string) : string :=
  match s with
  | String c rest => if is_space c then skip_spaces rest else s
  | EmptyString => s
  end.

(** The digits of a decimal literal: single underscores are allowed between
    digits, not in front, not at the end, not doubled.  [after_digit] tells
    whether the previous character was a digit.  Returns the number read and
    what follows it. *)
Fixpoint scan_digits (s : string) (acc : Z) (after_digit : bool)
  : option (Z * string) :=
  match s with
  | EmptyString => if after_digit then Some (acc, s) else None
  | String c rest =>
      match digit_value c with
      | Some d => scan_digits rest (10 * acc + d) true
      | None =>
          if Ascii.eqb c "_"%char then
            if after_digit then scan_digits rest acc false else None
          else if after_digit then Some (acc, s) else None
      end
  end.

(** [int(s)]: [None] stands for [ValueError]. *)
Definition to_int (s : string) : option Z :=
  let s1 := skip_spaces s in
  let '(sign, s2) :=
    match s1 with
    | String "+"%char rest => (1, rest)
    | String "-"%char rest => (-1, rest)
    | _ => (1, s1)
    end in
  match scan_digits s2 0 false with
  | Some (n, rest) =>
      match skip_spaces rest with
      | EmptyString => Some (sign * n)
      | String _ _ => None
      end
  | None => None
  end.

(** [n] in decimal, padded with zeros on the left to [width] characters. *)
Fixpoint zeros (k : nat) : string :=
  match k with
  | O => EmptyString
  | S k' => String "0"%char (zeros k')
  end.

Definition zero_pad (width : nat) (n : Z) : string :=
  let digits := of_int n in
  zeros (width - String.length digits) ++ digits.

End PyStr.

(** ** models.py *)

Inductive Protocol : Type := TCP | UDP.

Inductive Action : Type := ALLOW | ALERT | BLOCK.

Inductive Operator : Type := EQ | NE | GT | LT | GE | LE.

(** The [name] and the [value] of each enumeration member. *)
Definition Protocol_name (p : Protocol) : string :=
  match p with TCP => "TCP" | UDP => "UDP" end.

Definition Protocol_value (p : Protocol) : string :=
  match p with TCP => "TCP" | UDP => "UDP" end.

Definition Action_value (a : Action) : string :=
  match a with ALLOW => "allow" | ALERT => "alert" | BLOCK => "block" end.

Definition Operator_value (o : Operator) : string :=
  match o with
  | EQ => "==" | NE => "!=" | GT => ">" | LT => "<" | GE => ">=" | LE => "<="
  end.

#[global] Instance Action_eq_dec : EqDecision Action.
Proof. solve_decision. Defined.

#[global] Instance Protocol_eq_dec : EqDecision Protocol.
Proof. solve_decision. Defined.

(** A [datetime.datetime]; [utcoffset] is the offset of an aware value in
    seconds, [None] for a naive one. *)
Record datetime : Type := {
  year : Z;
  month : Z;
  day : Z;
  hour : Z;
  minute : Z;
  second : Z;
  microsecond : Z;
  utcoffset : option Z;
}.

Record ConnectionRequest : Type := {
  source_ip : string;
  destination_ip : string;
  destination_port : Z;
  protocol : Protocol;
  timestamp : datetime;
}.

Record ConnectionResponse : Type := {
  response_connection_id : string;
  response_decision : Action;
  response_anomaly_score : float;
  response_matched_policy : option string;
}.

Record ConnectionDetail : Type := {
  connection_id : string;
  detail_source_ip : string;
  detail_destination_ip : string;
  detail_destination_port : Z;
  detail_protocol : Protocol;
  detail_timestamp : datetime;
  decision : Action;
  anomaly_score : float;
  matched_policy : option string;
}.

Record PolicyCondition : Type := {
  field : string;
  operator : Operator;
  value : string;
}.

Record PolicyRequest : Type := {
  request_policy_id : string;
  request_conditions : list PolicyCondition;
  request_action : Action;
}.

Record Policy : Type := {
  policy_id : string;
  conditions : list PolicyCondition;
  action : Action;
}.

(** ** Python values met during field extraction *)

(** What an attribute path starting at a connection can yield: the model
    object itself, the values of its declared fields, or some other object of
    the interpreter (a method, a class, a container), of which the engine only
    ever takes the [str()]. *)
Inductive pyval : Type :=
| VNone
| VStr (s : string)
| VInt (n : Z)
| VProtocol (p : Protocol)
| VDatetime (t : datetime)
| VConn (c : ConnectionRequest)
| VObj (shown : string).

(** The expected value of a condition after line 43-50 of the engine: the
    literal string, or the integer parsed from it. *)
Inductive expected : Type :=
| EStr (s : string)
| EInt (n : Z).

Module PyDatetime.

(** The [+HH:MM] or [+HH:MM:SS] suffix of an aware value. *)
Definition offset_str (offset : Z) : string :=
  let sign := if (offset <? 0)%Z then "-" else "+" in
  let a := Z.abs offset in
  let hh := a / 3600 in
  let mm := (a mod 3600) / 60 in
  let ss := a mod 60 in
  sign ++ PyStr.zero_pad 2 hh ++ ":" ++ PyStr.zero_pad 2 mm
    ++ (if (ss =? 0)%Z then "" else ":" ++ PyStr.zero_pad 2 ss).

(** [str(t)], that is [t.isoformat(sep=' ')]. *)
Definition str (t : datetime) : string :=
  PyStr.zero_pad 4 (year t) ++ "-" ++ PyStr.zero_pad 2 (month t) ++ "-"
    ++ PyStr.zero_pad 2 (day t) ++ " "
    ++ PyStr.zero_pad 2 (hour t) ++ ":" ++ PyStr.zero_pad 2 (minute t) ++ ":"
    ++ PyStr.zero_pad 2 (second t)
    ++ (if (microsecond t =? 0)%Z then ""
        else "." ++ PyStr.zero_pad 6 (microsecond t))
    ++ match utcoffset t with
       | Some offset => offset_str offset
       | None => ""
       end.

End PyDatetime.

(** ** services/storage.py *)

(** A [collections.OrderedDict] with string keys: the entries in insertion
    order.  Assigning to a key that is present replaces the value where it
    stands; assigning to a new key appends. *)
Module OrderedDict.

Definition t (V : Type) : Type := list (string * V).

Definition empty {V : Type} : t V := [].

Definition keys {V : Type} (d : t V) : list string := map fst d.

(** [list(d.values())] *)
Definition values {V : Type} (d : t V) : list V := map snd d.

(** [d[k] = v] *)
Fixpoint setitem {V : Type} (k : string) (v : V) (d : t V) : t V :=
  match d with
  | [] => [(k, v)]
  | (k', v') :: rest =>
      if String.eqb k k' then (k, v) :: rest
      else (k', v') :: setitem k v rest
  end.

(** [d.get(k)] *)
Fixpoint get {V : Type} (k : string) (d : t V) : option V :=
  match d with
  | [] => None
  | (k', v') :: rest => if String.eqb k k' then Some v' else get k rest
  end.

(** [k in d] *)
Definition contains {V : Type} (k : string) (d : t V) : bool :=
  match get k d with Some _ => true | None => false end.

(** [del d[k]], called on a key that is present. *)
Fixpoint delitem {V : Type} (k : string) (d : t V) : t V :=
  match d with
  | [] => []
  | (k', v') :: rest =>
      if String.eqb k k' then rest else (k', v') :: delitem k rest
  end.

(** The keys of a dictionary are pairwise distinct. *)
Definition wf {V : Type} (d : t V) : Prop := NoDup (keys d).

End OrderedDict.

Module PolicyStore.

Record t : Type := { _policies : OrderedDict.t Policy }.

Definition init : t := {| _policies := OrderedDict.empty |}.

Definition add (self : t) (policy : Policy) : t :=
  {| _policies := OrderedDict.setitem (policy_id policy) policy (_policies self) |}.

Definition get (self : t) (id : string) : option Policy :=
  OrderedDict.get id (_policies self).

Definition get_all (self : t) : list Policy :=
  OrderedDict.values (_policies self).

(** Returns the store after the call and the boolean the method returns. *)
Definition delete (self : t) (id : string) : t * bool :=
  if OrderedDict.contains id (_policies self)
  then ({| _policies := OrderedDict.delitem id (_policies self) |}, true)
  else (self, false).

Definition clear (self : t) : t := {| _policies := OrderedDict.empty |}.

End PolicyStore.

(** The connection store is a plain [dict]; a [dict] keeps the insertion
    order and replaces in place like an [OrderedDict]. *)
Module ConnectionStore.

Record t : Type := { _connections : OrderedDict.t ConnectionDetail }.

Definition init : t := {| _connections := OrderedDict.empty |}.

Definition add (self : t) (connection : ConnectionDetail) : t :=
  {| _connections :=
       OrderedDict.setitem (connection_id connection) connection (_connections self) |}.

Definition get (self : t) (id : string) : option ConnectionDetail :=
  OrderedDict.get id (_connections self).

Definition get_all (self : t) : list ConnectionDetail :=
  OrderedDict.values (_connections self).

Definition clear (self : t) : t := {| _connections := OrderedDict.empty |}.

End ConnectionStore.

(** ** services/policy_engine.py *)

Section Engine.

(** [getattr] is reflective: besides the declared fields, an object has
    methods and double-underscore attributes.  [other_attr] stands for every
    attribute that the tables of [py_getattr] do not decide, [None] meaning
    [AttributeError].  [model_str] stands for pydantic's [str()] of the
    model object. *)
Variable other_attr : pyval -> string -> option pyval.
Variable model_str : ConnectionRequest -> string.

Definition declared_field (c : ConnectionRequest) (attr : string) : option pyval :=
  if String.eqb attr "source_ip" then Some (VStr (source_ip c))
  else if String.eqb attr "destination_ip" then Some (VStr (destination_ip c))
  else if String.eqb attr "destination_port" then Some (VInt (destination_port c))
  else if String.eqb attr "protocol" then Some (VProtocol (protocol c))
  else if String.eqb attr "timestamp" then Some (VDatetime (timestamp c))
  else None.

(** [getattr(v, attr)].  An enumeration member has a [value]; [None], a
    [str], an [int] and a [datetime] have no attribute of that name. *)
Definition py_getattr (v : pyval) (attr : string) : option pyval :=
  match v with
  | VConn c =>
      match declared_field c attr with
      | Some x => Some x
      | None => other_attr v attr
      end
  | VProtocol p =>
      if String.eqb attr "value" then Some (VStr (Protocol_value p))
      else other_attr v attr
  | VNone | VStr _ | VInt _ | VDatetime _ =>
      if String.eqb attr "value" then None else other_attr v attr
  | VObj _ => other_attr v attr
  end.

Definition hasattr (v : pyval) (attr : string) : bool :=
  match py_getattr v attr with Some _ => true | None => false end.

(** [str(v)].  A member of [Protocol(str, Enum)] prints as
    [Protocol.<name>], not as its value. *)
Definition py_str (v : pyval) : string :=
  match v with
  | VNone => "None"
  | VStr s => s
  | VInt n => PyStr.of_int n
  | VProtocol p => "Protocol." ++ Protocol_name p
  | VDatetime t => PyDatetime.str t
  | VConn c => model_str c
  | VObj shown => shown
  end.

Definition expected_str (e : expected) : string :=
  match e with
  | EStr s => s
  | EInt n => PyStr.of_int n
  end.

(** The ordering of an actual value against an expected one, [None] where
    Python has none and the comparison raises [TypeError]: strings (and the
    string a [Protocol] member is) against a string by code points,
    integers against an integer by magnitude, nothing else; in particular a
    [datetime] or an [int] has no ordering against a [str]. *)
Definition py_compare (actual : pyval) (e : expected) : option comparison :=
  match actual, e with
  | VStr s, EStr s' => Some (String.compare s s')
  | VProtocol p, EStr s' => Some (String.compare (Protocol_value p) s')
  | VInt n, EInt n' => Some (Z.compare n n')
  | _, _ => None
  end.

Definition py_gt (actual : pyval) (e : expected) : result bool :=
  match py_compare actual e with
  | Some c => Ok (match c with Gt => true | _ => false end)
  | None => Raise TypeError
  end.

Definition py_lt (actual : pyval) (e : expected) : result bool :=
  match py_compare actual e with
  | Some c => Ok (match c with Lt => true | _ => false end)
  | None => Raise TypeError
  end.

Definition py_ge (actual : pyval) (e : expected) : result bool :=
  match py_compare actual e with
  | Some c => Ok (match c with Lt => false | _ => true end)
  | None => Raise TypeError
  end.

Definition py_le (actual : pyval) (e : expected) : result bool :=
  match py_compare actual e with
  | Some c => Ok (match c with Gt => false | _ => true end)
  | None => Raise TypeError
  end.

(** The loop [for attr in field.split("."): value = getattr(value, attr)];
    [None] when a [getattr] raises [AttributeError]. *)
Fixpoint getattr_path (value : pyval) (attrs : list string) : option pyval :=
  match attrs with
  | [] => Some value
  | attr :: rest =>
      match py_getattr value attr with
      | Some value' => getattr_path value' rest
      | None => None
      end
  end.

Definition _get_field_value (connection : ConnectionRequest) (field : string)
  : pyval :=
  match getattr_path (VConn connection) (PyStr.split_dot field) with
  | Some value =>
      if hasattr value "value" && negb (PyStr.contains_dot field) then
        match py_getattr value "value" with
        | Some unwrapped => unwrapped
        | None => VNone
        end
      else value
  | None => VNone
  end.

(** Lines 43-50: the literal, turned into an integer when the field is
    exactly [destination_port]; [None] when [int()] raises [ValueError]. *)
Definition convert_expected (condition : PolicyCondition) : option expected :=
  if String.eqb (field condition) "destination_port" then
    match PyStr.to_int (value condition) with
    | Some n => Some (EInt n)
    | None => None
    end
  else Some (EStr (value condition)).

Definition _evaluate_condition
  (connection : ConnectionRequest) (condition : PolicyCondition) : result bool :=
  let actual_value := _get_field_value connection (field condition) in
  match actual_value with
  | VNone => Ok false
  | _ =>
      match convert_expected condition with
      | None => Ok false
      | Some expected_value =>
          match operator condition with
          | EQ => Ok (String.eqb (py_str actual_value) (expected_str expected_value))
          | NE => Ok (negb (String.eqb (py_str actual_value) (expected_str expected_value)))
          | GT => py_gt actual_value expected_value
          | LT => py_lt actual_value expected_value
          | GE => py_ge actual_value expected_value
          | LE => py_le actual_value expected_value
          end
      end
  end.

(** [all(f(x) for x in l)]: stops at the first false, and a call that
    raises ends the iteration with that exception. *)
Fixpoint py_all {A : Type} (f : A -> result bool) (l : list A) : result bool :=
  match l with
  | [] => Ok true
  | x :: rest =>
      match f x with
      | Ok true => py_all f rest
      | Ok false => Ok false
      | Raise e => Raise e
      end
  end.

Definition _matches_policy (connection : ConnectionRequest) (policy : Policy)
  : result bool :=
  py_all (_evaluate_condition connection) (conditions policy).

(** The loop of [evaluate] over the list that [get_all] returned. *)
Fixpoint evaluate_loop (connection : ConnectionRequest) (policies : list Policy)
  : result (option Policy) :=
  match policies with
  | [] => Ok None
  | policy :: rest =>
      match _matches_policy connection policy with
      | Ok true => Ok (Some policy)
      | Ok false => evaluate_loop connection rest
      | Raise e => Raise e
      end
  end.

Definition evaluate (policy_store : PolicyStore.t) (connection : ConnectionRequest)
  : result (option Policy) :=
  evaluate_loop connection (PolicyStore.get_all policy_store).

End Engine.

(** ** Python floats *)

Module PyFloat.

Definition of_Z (k : Z) : float := PrimFloat.of_uint63 (Uint63.of_Z k).

(** [n / d] rounded to the nearest integer, ties to the even one
    ([0 <= n], [0 < d]). *)
Definition div_half_even (n d : Z) : Z :=
  let q := n / d in
  let r := n mod d in
  match Z.compare (2 * r) d with
  | Lt => q
  | Gt => q + 1
  | Eq => if Z.even q then q else q + 1
  end.

(** [round(x, 2)]: the exact value of [x] is rounded half-even to a
    multiple of 1/100, and the double nearest to that decimal is returned
    with the sign of [x].  A finite [x = m * 2^e] with [0 <= e] is an
    integer and is returned as it is; so is an [x] whose hundredths [k]
    need more than 53 bits, since the doubles around it are then more than
    1/100 apart and [x] is the one nearest to the decimal.  Below that, [k]
    and [100] are exact doubles and their quotient is correctly rounded.
    Zeros, infinities and NaN round to themselves. *)
Definition round2 (x : float) : float :=
  match Prim2SF x with
  | S754_finite s m e =>
      if (0 <=? e)%Z then x
      else
        let k := div_half_even (100 * Z.pos m) (2 ^ (- e)) in
        if (k <? 2 ^ 53)%Z then
          let r := (of_Z k / 100)%float in
          if s then (- r)%float else r
        else x
  | _ => x
  end.

End PyFloat.

(** ** main.py *)

(** The two module-level stores of [services/storage.py]. *)
Record stores : Type := {
  policy_store : PolicyStore.t;
  connection_store : ConnectionStore.t;
}.

Section Handlers.

Variable other_attr : pyval -> string -> option pyval.
Variable model_str : ConnectionRequest -> string.

(** Lines 47-57 of [submit_connection]: the action and the identifier taken
    from the matched policy, or the default, and then the anomaly
    exception. *)
Definition determine_action (matched_policy : option Policy) (anomaly_score : float)
  : Action * option string :=
  let '(action, matched_policy_id) :=
    match matched_policy with
    | Some p => (action p, Some (policy_id p))
    | None => (BLOCK, None)
    end in
  let action :=
    if (0.8 <? anomaly_score)%float && bool_decide (action = ALLOW)
    then ALERT else action in
  (action, matched_policy_id).

(** [submit_connection]: [uuid4] is the string of the identifier drawn by
    [uuid.uuid4()], [get_score] the number returned by the anomaly
    detector.  Returns the response and the stores after the call. *)
Definition submit_connection
  (st : stores) (uuid4 : string) (get_score : float) (request : ConnectionRequest)
  : result (ConnectionResponse * stores) :=
  let connection_id := uuid4 in
  let anomaly_score := get_score in
  matched_policy ← evaluate other_attr model_str (policy_store st) request;
  let '(action, matched_policy_id) := determine_action matched_policy anomaly_score in
  let connection_detail :=
    {| connection_id := connection_id;
       detail_source_ip := source_ip request;
       detail_destination_ip := destination_ip request;
       detail_destination_port := destination_port request;
       detail_protocol := protocol request;
       detail_timestamp := timestamp request;
       decision := action;
       anomaly_score := anomaly_score;
       matched_policy := matched_policy_id |} in
  let connection_store := ConnectionStore.add (connection_store st) connection_detail in
  Ok ({| response_connection_id := connection_id;
         response_decision := action;
         response_anomaly_score := PyFloat.round2 anomaly_score;
         response_matched_policy := matched_policy_id |},
      {| policy_store := policy_store st; connection_store := connection_store |}).

End Handlers.

Definition create_policy (st : stores) (request : PolicyRequest) : Policy * stores :=
  let policy :=
    {| policy_id := request_policy_id request;
       conditions := request_conditions request;
       action := request_action request |} in
  (policy,
   {| policy_store := PolicyStore.add (policy_store st) policy;
      connection_store := connection_store st |}).

Definition list_policies (st : stores) : list Policy :=
  PolicyStore.get_all (policy_store st).

(** [None] stands for the 404 that the handler raises. *)
Definition get_connection (st : stores) (id : string) : option ConnectionDetail :=
  ConnectionStore.get (connection_store st) id.

Definition delete_policy (st : stores) (id : string) : option stores :=
  let '(store', deleted) := PolicyStore.delete (policy_store st) id in
  if deleted
  then Some {| policy_store := store'; connection_store := connection_store st |}
  else None.

(** ** Concrete values used in the examples *)

(** The connection of the test suite. *)
Definition sample_timestamp : datetime :=
  {| year := 2024; month := 1; day := 15; hour := 10; minute := 30;
     second := 0; microsecond := 0; utcoffset := None |}.

Definition sample_connection : ConnectionRequest :=
  {| source_ip := "192.168.1.100";
     destination_ip := "10.0.0.1";
     destination_port := 443;
     protocol := TCP;
     timestamp := sample_timestamp |}.

(** A connection seen before the date that [after_2024] names. *)
Definition earlier_connection : ConnectionRequest :=
  {| source_ip := "192.168.1.100";
     destination_ip := "10.0.0.1";
     destination_port := 443;
     protocol := TCP;
     timestamp := {| year := 2023; month := 6; day := 1; hour := 8; minute := 0;
                     second := 0; microsecond := 0; utcoffset := None |} |}.

(** An interpreter in which only the attributes of the tables resolve. *)
Definition no_other_attr : pyval -> string -> option pyval := fun _ _ => None.

(** An interpreter that also knows the data attributes of an [int] and of a
    [datetime], the name of a [Protocol] member, its class and the members
    of that class. *)
Definition data_attr : pyval -> string -> option pyval := fun v attr =>
  match v with
  | VInt n =>
      if String.eqb attr "real" || String.eqb attr "numerator" then Some (VInt n)
      else if String.eqb attr "imag" then Some (VInt 0)
      else if String.eqb attr "denominator" then Some (VInt 1)
      else None
  | VDatetime t =>
      if String.eqb attr "year" then Some (VInt (year t))
      else if String.eqb attr "month" then Some (VInt (month t))
      else if String.eqb attr "day" then Some (VInt (day t))
      else if String.eqb attr "hour" then Some (VInt (hour t))
      else if String.eqb attr "minute" then Some (VInt (minute t))
      else if String.eqb attr "second" then Some (VInt (second t))
      else if String.eqb attr "microsecond" then Some (VInt (microsecond t))
      else None
  | VProtocol p =>
      if String.eqb attr "name" then Some (VStr (Protocol_name p))
      else if String.eqb attr "__class__" then Some (VObj "<enum 'Protocol'>")
      else None
  | VObj "<enum 'Protocol'>" =>
      if String.eqb attr "TCP" then Some (VProtocol TCP)
      else if String.eqb attr "UDP" then Some (VProtocol UDP)
      else None
  | _ => None
  end.

Definition opaque_model_str : ConnectionRequest -> string := fun _ => "<ConnectionRequest>".

(** The store after adding the given policies, one call of [add] each. *)
Definition store_of (policies : list Policy) : PolicyStore.t :=
  fold_left PolicyStore.add policies PolicyStore.init.

Definition stores_of (policies : list Policy) : stores :=
  {| policy_store := store_of policies; connection_store := ConnectionStore.init |}.

Definition empty_stores : stores := stores_of [].

Definition after_2024 : PolicyCondition :=
  {| field := "timestamp"; operator := GT; value := "2024-01-01 00:00:00" |}.

Definition port_is_443 : PolicyCondition :=
  {| field := "destination_port"; operator := EQ; value := "443" |}.

Definition port_is_not_443 : PolicyCondition :=
  {| field := "destination_port"; operator := NE; value := "443" |}.

Definition protocol_is_udp : PolicyCondition :=
  {| field := "protocol"; operator := EQ; value := "UDP" |}.

Definition recent_policy : Policy :=
  {| policy_id := "recent"; conditions := [after_2024]; action := ALLOW |}.

Definition catch_all_policy : Policy :=
  {| policy_id := "catch-all"; conditions := []; action := BLOCK |}.

Definition allow_443 : Policy :=
  {| policy_id := "allow-443"; conditions := [port_is_443]; action := ALLOW |}.

Definition udp_only : Policy :=
  {| policy_id := "udp-only"; conditions := [protocol_is_udp]; action := BLOCK |}.

(** A second policy under the identifier of [allow_443]. *)
Definition allow_443_replacement : Policy :=
  {| policy_id := "allow-443"; conditions := []; action := ALERT |}.

(** The decision and the policy reported for a connection submitted to a
    store that holds the given policies; [None] when the handler raises. *)
Definition submitted (policies : list Policy) (score : float) (c : ConnectionRequest)
  : option (Action * option string) :=
  match submit_connection no_other_attr opaque_model_str (stores_of policies)
          "id" score c with
  | Ok (resp, _) => Some (response_decision resp, response_matched_policy resp)
  | Raise _ => None
  end.

Definition on_port (port : Z) : ConnectionRequest :=
  {| source_ip := "192.168.1.100";
     destination_ip := "10.0.0.1";
     destination_port := port;
     protocol := TCP;
     timestamp := sample_timestamp |}.

Definition block_non_https : Policy :=
  {| policy_id := "block-non-https"; conditions := [port_is_not_443]; action := BLOCK |}.

Definition allow_all : Policy :=
  {| policy_id := "allow-all"; conditions := []; action := ALLOW |}.

Definition block_tcp : Policy :=
  {| policy_id := "block-tcp";
     conditions := [{| field := "protocol"; operator := EQ; value := "TCP" |}];
     action := BLOCK |}.

Definition strict_allow : Policy :=
  {| policy_id := "strict-allow";
     conditions := [port_is_443;
                    {| field := "protocol"; operator := EQ; value := "TCP" |};
                    {| field := "destination_ip"; operator := EQ; value := "10.0.0.1" |}];
     action := ALLOW |}.

(** A call of one of the methods that change a policy store, and the store
    that a sequence of such calls leaves, starting from the empty one. *)
Inductive store_call : Type :=
| CallAdd (policy : Policy)
| CallDelete (id : string)
| CallClear.

Definition apply_call (store : PolicyStore.t) (call : store_call) : PolicyStore.t :=
  match call with
  | CallAdd policy => PolicyStore.add store policy
  | CallDelete id => fst (PolicyStore.delete store id)
  | CallClear => PolicyStore.clear store
  end.

Definition after_calls (calls : list store_call) : PolicyStore.t :=
  fold_left apply_call calls PolicyStore.init.

(** Every policy of the store is filed under its own identifier. *)
Definition keyed (store : PolicyStore.t) : Prop :=
  Forall (fun entry => fst entry = policy_id (snd entry)) (PolicyStore._policies store).

(** The fields whose value has an ordering against the converted literal,
    and the conditions that therefore return for every connection: equality
    tests, and any test on one of those fields. *)
Definition ordered_fields : list string :=
  ["source_ip"; "destination_ip"; "destination_port"; "protocol"].

Definition returns_always (cond : PolicyCondition) : Prop :=
  operator cond = EQ \/ operator cond = NE \/ field cond ∈ ordered_fields.

(** A date of the calendar, as far as the first ten characters of its text
    go. *)
Definition calendar_date (t : datetime) : Prop :=
  (1 <= year t <= 9999)%Z /\ (1 <= month t <= 12)%Z /\ (1 <= day t <= 31)%Z.

(** A policy whose second condition is false on a TCP connection to port
    443 and whose third condition would raise. *)
Definition shielded_policy : Policy :=
  {| policy_id := "shielded";
     conditions := [port_is_443; protocol_is_udp; after_2024];
     action := ALLOW |}.

#[local] Abbreviation gfv := (_get_field_value no_other_attr).
#[local] Abbreviation cond_on :=
  (_evaluate_condition no_other_attr opaque_model_str sample_connection).

(** * Properties *)

(** ** Sanity checks of the Python primitives *)

Example split_dot_plain : PyStr.split_dot "protocol" = ["protocol"].
Proof. reflexivity. Qed.

Example split_dot_nested : PyStr.split_dot "protocol.value" = ["protocol"; "value"].
Proof. reflexivity. Qed.

Example split_dot_edges :
  PyStr.split_dot "" = [""] /\ PyStr.split_dot "a..b" = ["a"; ""; "b"]
  /\ PyStr.split_dot ".a." = [""; "a"; ""].
Proof. repeat split; reflexivity. Qed.

Example to_int_samples :
  PyStr.to_int "443" = Some 443 /\ PyStr.to_int " -80 " = Some (-80)
  /\ PyStr.to_int "1_000" = Some 1000 /\ PyStr.to_int "007" = Some 7
  /\ PyStr.to_int "abc" = None /\ PyStr.to_int "" = None
  /\ PyStr.to_int "4 4" = None /\ PyStr.to_int "_1" = None
  /\ PyStr.to_int "1__0" = None /\ PyStr.to_int "1_" = None
  /\ PyStr.to_int "0x1F" = None /\ PyStr.to_int "4.0" = None
  /\ PyStr.to_int "- 5" = None /\ PyStr.to_int "+" = None
  /\ PyStr.to_int (String (ascii_of_nat 160) "443") = Some 443.
Proof. repeat split; reflexivity. Qed.

Example of_int_samples :
  PyStr.of_int 443 = "443" /\ PyStr.of_int 0 = "0" /\ PyStr.of_int (-5) = "-5"
  /\ PyStr.zero_pad 2 7 = "07" /\ PyStr.zero_pad 4 2024 = "2024"
  /\ PyStr.zero_pad 6 123 = "000123".
Proof. repeat split; reflexivity. Qed.

Example datetime_str_samples :
  PyDatetime.str {| year := 2024; month := 1; day := 15; hour := 10;
                    minute := 30; second := 0; microsecond := 0;
                    utcoffset := None |} = "2024-01-15 10:30:00"
  /\ PyDatetime.str {| year := 2024; month := 1; day := 15; hour := 10;
                       minute := 30; second := 0; microsecond := 250;
                       utcoffset := Some (-19800) |}
     = "2024-01-15 10:30:00.000250-05:30".
Proof. split; reflexivity. Qed.

Example round2_samples :
  PyFloat.round2 0.123456 = 0.12%float
  /\ PyFloat.round2 0.125 = 0.12%float
  /\ PyFloat.round2 0.375 = 0.38%float
  /\ PyFloat.round2 2.675 = 2.67%float
  /\ PyFloat.round2 0.999 = 1%float
  /\ PyFloat.round2 0.8 = 0.8%float
  /\ PyFloat.round2 0.005 = 0.01%float
  /\ PyFloat.round2 (-0.001) = (-0)%float
  /\ PyFloat.round2 1e16 = 1e16%float
  /\ PyFloat.round2 infinity = infinity.
Proof. repeat split; vm_compute; reflexivity. Qed.

(** ** The cases of the test suite *)

Example test_get_field_value :
  gfv sample_connection "source_ip" = VStr "192.168.1.100"
  /\ gfv sample_connection "destination_ip" = VStr "10.0.0.1"
  /\ gfv sample_connection "destination_port" = VInt 443
  /\ gfv sample_connection "protocol" = VStr "TCP"
  /\ gfv sample_connection "timestamp" = VDatetime sample_timestamp
  /\ gfv sample_connection "nonexistent" = VNone.
Proof. repeat split; reflexivity. Qed.

Example test_evaluate_condition :
  cond_on {| field := "source_ip"; operator := EQ; value := "192.168.1.100" |} = Ok true
  /\ cond_on {| field := "source_ip"; operator := EQ; value := "10.0.0.5" |} = Ok false
  /\ cond_on {| field := "source_ip"; operator := NE; value := "10.0.0.5" |} = Ok true
  /\ cond_on {| field := "source_ip"; operator := NE; value := "192.168.1.100" |} = Ok false
  /\ cond_on {| field := "destination_port"; operator := EQ; value := "443" |} = Ok true
  /\ cond_on {| field := "destination_port"; operator := EQ; value := "80" |} = Ok false
  /\ cond_on {| field := "destination_port"; operator := EQ; value := "invalid" |} = Ok false
  /\ cond_on {| field := "protocol"; operator := EQ; value := "TCP" |} = Ok true
  /\ cond_on {| field := "protocol"; operator := EQ; value := "UDP" |} = Ok false
  /\ cond_on {| field := "nonexistent"; operator := EQ; value := "any" |} = Ok false.
Proof. repeat split; reflexivity. Qed.

Example ordering_samples :
  cond_on {| field := "destination_port"; operator := GT; value := "80" |} = Ok true
  /\ cond_on {| field := "destination_port"; operator := LT; value := "1000" |} = Ok true
  /\ cond_on {| field := "destination_port"; operator := GE; value := "443" |} = Ok true
  /\ cond_on {| field := "destination_port"; operator := LE; value := "442" |} = Ok false
  /\ cond_on {| field := "source_ip"; operator := LT; value := "2" |} = Ok true
  /\ cond_on {| field := "protocol"; operator := GE; value := "TCP" |} = Ok true
  /\ cond_on {| field := "timestamp"; operator := EQ; value := "2024-01-15 10:30:00" |} = Ok true
  /\ cond_on {| field := "timestamp"; operator := GT; value := "2024-01-01 00:00:00" |}
     = Raise TypeError.
Proof. repeat split; reflexivity. Qed.

Example test_matches_policy :
  _matches_policy no_other_attr opaque_model_str sample_connection allow_443 = Ok true
  /\ _matches_policy no_other_attr opaque_model_str sample_connection strict_allow
     = Ok true
  /\ _matches_policy no_other_attr opaque_model_str sample_connection udp_only
     = Ok false
  /\ _matches_policy no_other_attr opaque_model_str sample_connection catch_all_policy
     = Ok true.
Proof. repeat split; reflexivity. Qed.

Example test_update_replaces_existing :
  let store := store_of [allow_443; allow_443_replacement] in
  PolicyStore.get store "allow-443" = Some allow_443_replacement
  /\ length (PolicyStore.get_all store) = 1%nat.
Proof. split; reflexivity. Qed.

Example test_delete :
  PolicyStore.delete (store_of [udp_only; allow_443]) "udp-only"
  = (store_of [allow_443], true)
  /\ snd (PolicyStore.delete (store_of [allow_443]) "nonexistent") = false.
Proof. split; reflexivity. Qed.

Example test_submit_connection :
  submitted [] 0.5 sample_connection = Some (BLOCK, None)
  /\ submitted [allow_443] 0.1 sample_connection = Some (ALLOW, Some "allow-443")
  /\ submitted [allow_443] 0.95 sample_connection = Some (ALERT, Some "allow-443")
  /\ submitted [block_tcp] 0.95 sample_connection = Some (BLOCK, Some "block-tcp").
Proof. repeat split; reflexivity. Qed.

Example test_policy_priority_order :
  submitted [allow_443; block_tcp] 0.1 sample_connection
  = Some (ALLOW, Some "allow-443")
  /\ submitted [block_tcp; allow_443] 0.1 sample_connection
     = Some (BLOCK, Some "block-tcp").
Proof. split; reflexivity. Qed.

Example test_ne_operator_in_policy :
  submitted [block_non_https; allow_all] 0.1 (on_port 80)
  = Some (BLOCK, Some "block-non-https")
  /\ submitted [block_non_https; allow_all] 0.1 (on_port 443)
     = Some (ALLOW, Some "allow-all").
Proof. split; reflexivity. Qed.

Example submit_raises_with_the_engine :
  submitted [recent_policy; catch_all_policy] 0.1 sample_connection = None.
Proof. reflexivity. Qed.

(** ** Field paths *)

Lemma split_dot_not_nil (s : string) : PyStr.split_dot s <> [].
Proof.
  induction s as [|c rest IH]; simpl; [discriminate|].
  destruct (Ascii.eqb c "."); [discriminate|].
  destruct (PyStr.split_dot rest); discriminate.
Qed.

(** A path without a dot is its own single segment. *)
Lemma split_dot_single (s : string) :
  PyStr.contains_dot s = false -> PyStr.split_dot s = [s].
Proof.
  induction s as [|c rest IH]; simpl; [reflexivity|].
  destruct (Ascii.eqb c "."); simpl; [discriminate|].
  intros H. rewrite (IH H). reflexivity.
Qed.

(** A path with a dot has at least two segments. *)
Lemma split_dot_several (s : string) :
  PyStr.contains_dot s = true ->
  exists a b rest, PyStr.split_dot s = a :: b :: rest.
Proof.
  induction s as [|c rest IH]; simpl; [discriminate|].
  destruct (Ascii.eqb c ".") eqn:E; simpl.
  - intros _. destruct (PyStr.split_dot rest) as [|b more] eqn:R.
    + destruct (split_dot_not_nil _ R).
    + eauto.
  - intros H. destruct (IH H) as (a & b & more & ->). eauto.
Qed.

Section EngineFacts.

Variable other_attr : pyval -> string -> option pyval.
Variable model_str : ConnectionRequest -> string.

#[local] Abbreviation get_field_value := (_get_field_value other_attr).
#[local] Abbreviation evaluate_condition := (_evaluate_condition other_attr model_str).
#[local] Abbreviation matches_policy := (_matches_policy other_attr model_str).
#[local] Abbreviation eval_loop := (evaluate_loop other_attr model_str).

(** The five declared fields resolve to the values of the record, the
    protocol unwrapped to its string, whatever else the interpreter knows. *)
Lemma get_field_value_declared (c : ConnectionRequest) :
  get_field_value c "source_ip" = VStr (source_ip c)
  /\ get_field_value c "destination_ip" = VStr (destination_ip c)
  /\ get_field_value c "destination_port" = VInt (destination_port c)
  /\ get_field_value c "protocol" = VStr (Protocol_value (protocol c))
  /\ get_field_value c "timestamp" = VDatetime (timestamp c).
Proof. repeat split; reflexivity. Qed.

(** Without a dot the extraction is one [getattr] on the connection,
    followed by the unwrapping of a [value] attribute when there is one. *)
Lemma get_field_value_single (c : ConnectionRequest) (f : string) :
  PyStr.contains_dot f = false ->
  get_field_value c f =
    match py_getattr other_attr (VConn c) f with
    | Some v =>
        match py_getattr other_attr v "value" with
        | Some unwrapped => unwrapped
        | None => v
        end
    | None => VNone
    end.
Proof.
  intros H. unfold _get_field_value, hasattr.
  rewrite (split_dot_single _ H), H.
  cbn [getattr_path negb].
  destruct (py_getattr other_attr (VConn c) f) as [v|]; [|reflexivity].
  destruct (py_getattr other_attr v "value"); reflexivity.
Qed.

(** With a dot the extraction is the chain of [getattr] and nothing else. *)
Lemma get_field_value_dotted (c : ConnectionRequest) (f : string) :
  PyStr.contains_dot f = true ->
  get_field_value c f =
    match getattr_path other_attr (VConn c) (PyStr.split_dot f) with
    | Some v => v
    | None => VNone
    end.
Proof.
  intros H. unfold _get_field_value. rewrite H. cbn [negb].
  destruct (getattr_path other_attr (VConn c) (PyStr.split_dot f)); [|reflexivity].
  rewrite andb_false_r. reflexivity.
Qed.

(** ** Conditions *)

(** A condition on a field that yields no value is false. *)
Lemma evaluate_condition_no_value (c : ConnectionRequest) (cond : PolicyCondition) :
  get_field_value c (field cond) = VNone ->
  evaluate_condition c cond = Ok false.
Proof. intros H. unfold _evaluate_condition. rewrite H. reflexivity. Qed.

(** A condition whose literal cannot be converted is false. *)
Lemma evaluate_condition_no_expected (c : ConnectionRequest) (cond : PolicyCondition) :
  convert_expected cond = None ->
  evaluate_condition c cond = Ok false.
Proof.
  intros H. unfold _evaluate_condition. rewrite H.
  destruct (get_field_value c (field cond)); reflexivity.
Qed.

(** Once both values are there, the result is decided by the operator. *)
Lemma evaluate_condition_operator
  (c : ConnectionRequest) (cond : PolicyCondition) (e : expected) :
  get_field_value c (field cond) <> VNone ->
  convert_expected cond = Some e ->
  evaluate_condition c cond =
    let a := get_field_value c (field cond) in
    match operator cond with
    | EQ => Ok (String.eqb (py_str model_str a) (expected_str e))
    | NE => Ok (negb (String.eqb (py_str model_str a) (expected_str e)))
    | GT => py_gt a e
    | LT => py_lt a e
    | GE => py_ge a e
    | LE => py_le a e
    end.
Proof.
  intros Ha He. unfold _evaluate_condition. rewrite He.
  destruct (get_field_value c (field cond)); try reflexivity.
  congruence.
Qed.

(** The literal is converted only for the field [destination_port]. *)
Lemma convert_expected_port (cond : PolicyCondition) :
  field cond = "destination_port" ->
  convert_expected cond = EInt <$> PyStr.to_int (value cond).
Proof.
  intros H. unfold convert_expected. rewrite H. simpl.
  destruct (PyStr.to_int (value cond)); reflexivity.
Qed.

Lemma convert_expected_other (cond : PolicyCondition) :
  field cond <> "destination_port" ->
  convert_expected cond = Some (EStr (value cond)).
Proof.
  intros H. unfold convert_expected.
  destruct (String.eqb_spec (field cond) "destination_port"); [contradiction|reflexivity].
Qed.

End EngineFacts.


(** ** The scan over conditions and over policies *)

(** Both loops stop at the first element that answers otherwise than the
    elements before it; the statements below speak of "every lower index".
    [lower_at_head] uses such a hypothesis at index 0, where it contradicts
    what the head of the list answered; [lower_shift] moves it between a list
    and its tail. *)
Ltac lower_at_head Hlow E :=
  let X := fresh "X" in
  specialize (Hlow 0%nat _ eq_refl); rewrite E in Hlow;
  assert (X := Hlow ltac:(lia)); discriminate X.

Ltac lower_shift Hlow :=
  let j := fresh "j" in
  let y := fresh "y" in
  let Hy := fresh "Hy" in
  let Hj := fresh "Hj" in
  intros j y Hy Hj;
  first
    [ apply (Hlow (S j)); [exact Hy | lia]
    | destruct j as [|j]; simpl in Hy;
      [ congruence | apply (Hlow j); [exact Hy | lia] ] ].

Section ScanFacts.

Variable other_attr : pyval -> string -> option pyval.
Variable model_str : ConnectionRequest -> string.

#[local] Abbreviation evaluate_condition := (_evaluate_condition other_attr model_str).
#[local] Abbreviation matches_policy := (_matches_policy other_attr model_str).
#[local] Abbreviation eval_loop := (evaluate_loop other_attr model_str).

Lemma py_all_true {A : Type} (f : A -> result bool) (l : list A) :
  py_all f l = Ok true <-> Forall (fun x => f x = Ok true) l.
Proof.
  induction l as [|x l IH]; simpl.
  - split; [constructor|reflexivity].
  - rewrite Forall_cons. destruct (f x) as [[|]|e] eqn:E.
    + rewrite IH. tauto.
    + split; [discriminate|]. intros [H _]. discriminate H.
    + split; [discriminate|]. intros [H _]. discriminate H.
Qed.

(** [all] answers false exactly when some element is false and every
    element before it is true. *)
Lemma py_all_false {A : Type} (f : A -> result bool) (l : list A) :
  py_all f l = Ok false <->
  exists i x, l !! i = Some x /\ f x = Ok false
              /\ forall j y, l !! j = Some y -> (j < i)%nat -> f y = Ok true.
Proof.
  induction l as [|x l IH]; simpl.
  - split; [discriminate|]. intros ([|i] & y & H & _); discriminate H.
  - destruct (f x) as [[|]|e] eqn:E.
    + rewrite IH. split.
      * intros (i & y & Hi & Hy & Hlow). exists (S i), y.
        split; [exact Hi|]. split; [exact Hy|]. lower_shift Hlow.
      * intros ([|i] & y & Hi & Hy & Hlow); simpl in Hi; [congruence|].
        exists i, y. split; [exact Hi|]. split; [exact Hy|]. lower_shift Hlow.
    + split; [|reflexivity]. intros _. exists 0%nat, x.
      split; [reflexivity|]. split; [exact E|]. intros j y _ Hj. lia.
    + split; [discriminate|].
      intros ([|i] & y & Hi & Hy & Hlow); simpl in Hi; [congruence|].
      lower_at_head Hlow E.
Qed.

(** A policy without conditions matches every connection. *)
Lemma matches_policy_no_conditions (c : ConnectionRequest) (p : Policy) :
  conditions p = [] -> matches_policy c p = Ok true.
Proof. intros H. unfold _matches_policy. rewrite H. reflexivity. Qed.

Lemma matches_policy_true (c : ConnectionRequest) (p : Policy) :
  matches_policy c p = Ok true <->
  Forall (fun cond => evaluate_condition c cond = Ok true) (conditions p).
Proof. apply py_all_true. Qed.

(** The loop returns [p] exactly when [p] stands at some index, matches, and
    every policy at a lower index was evaluated and did not match. *)
Lemma evaluate_loop_Some (c : ConnectionRequest) (ps : list Policy) (p : Policy) :
  eval_loop c ps = Ok (Some p) <->
  exists i, ps !! i = Some p /\ matches_policy c p = Ok true
            /\ forall j q, ps !! j = Some q -> (j < i)%nat ->
                           matches_policy c q = Ok false.
Proof.
  induction ps as [|q ps IH]; simpl.
  - split; [discriminate|]. intros ([|i] & H & _); discriminate H.
  - destruct (matches_policy c q) as [[|]|e] eqn:E.
    + split.
      * intros [= <-]. exists 0%nat.
        split; [reflexivity|]. split; [exact E|]. intros j r _ Hj. lia.
      * intros ([|i] & Hi & Hp & Hlow); simpl in Hi; [congruence|].
        lower_at_head Hlow E.
    + rewrite IH. split.
      * intros (i & Hi & Hp & Hlow). exists (S i).
        split; [exact Hi|]. split; [exact Hp|]. lower_shift Hlow.
      * intros ([|i] & Hi & Hp & Hlow); simpl in Hi; [congruence|].
        exists i. split; [exact Hi|]. split; [exact Hp|]. lower_shift Hlow.
    + split; [discriminate|].
      intros ([|i] & Hi & Hp & Hlow); simpl in Hi; [congruence|].
      lower_at_head Hlow E.
Qed.

(** The loop returns [None] exactly when every policy was evaluated and did
    not match; in particular on the empty list. *)
Lemma evaluate_loop_None (c : ConnectionRequest) (ps : list Policy) :
  eval_loop c ps = Ok None <->
  Forall (fun q => matches_policy c q = Ok false) ps.
Proof.
  induction ps as [|q ps IH]; simpl.
  - split; [constructor|reflexivity].
  - rewrite Forall_cons. destruct (matches_policy c q) as [[|]|e] eqn:E.
    + split; [discriminate|]. intros [H _]. discriminate H.
    + rewrite IH. tauto.
    + split; [discriminate|]. intros [H _]. discriminate H.
Qed.

(** The loop raises exactly when a policy raises before any policy has
    matched. *)
Lemma evaluate_loop_Raise (c : ConnectionRequest) (ps : list Policy) (e : exn) :
  eval_loop c ps = Raise e <->
  exists i q, ps !! i = Some q /\ matches_policy c q = Raise e
              /\ forall j r, ps !! j = Some r -> (j < i)%nat ->
                             matches_policy c r = Ok false.
Proof.
  induction ps as [|q ps IH]; simpl.
  - split; [discriminate|]. intros ([|i] & r & H & _); discriminate H.
  - destruct (matches_policy c q) as [[|]|e'] eqn:E.
    + split; [discriminate|].
      intros ([|i] & r & Hi & Hr & Hlow); simpl in Hi; [congruence|].
      lower_at_head Hlow E.
    + rewrite IH. split.
      * intros (i & r & Hi & Hr & Hlow). exists (S i), r.
        split; [exact Hi|]. split; [exact Hr|]. lower_shift Hlow.
      * intros ([|i] & r & Hi & Hr & Hlow); simpl in Hi; [congruence|].
        exists i, r. split; [exact Hi|]. split; [exact Hr|]. lower_shift Hlow.
    + split.
      * intros [= ->]. exists 0%nat, q.
        split; [reflexivity|]. split; [exact E|]. intros j r _ Hj. lia.
      * intros ([|i] & r & Hi & Hr & Hlow); simpl in Hi; [congruence|].
        lower_at_head Hlow E.
Qed.

End ScanFacts.

(** ** The ordered dictionary *)

Section OrderedDictFacts.

Context {V : Type}.
Implicit Types (d : OrderedDict.t V) (k : string) (v : V).

Lemma setitem_keys_present k v d :
  k ∈ OrderedDict.keys d ->
  OrderedDict.keys (OrderedDict.setitem k v d) = OrderedDict.keys d.
Proof.
  induction d as [|[k' v'] d IH]; simpl; intros H.
  - inversion H.
  - destruct (String.eqb_spec k k') as [->|Hne]; simpl; [reflexivity|].
    f_equal. apply IH. apply elem_of_cons in H as [H|H]; [contradiction|assumption].
Qed.

Lemma setitem_fresh k v d :
  k ∉ OrderedDict.keys d -> OrderedDict.setitem k v d = (d ++ [(k, v)])%list.
Proof.
  induction d as [|[k' v'] d IH]; simpl; intros H; [reflexivity|].
  apply not_elem_of_cons in H as [Hne H].
  destruct (String.eqb_spec k k'); [contradiction|].
  rewrite (IH H). reflexivity.
Qed.

(** Assigning to a key that stands at index [i] changes the value at [i]
    and nothing else. *)
Lemma setitem_values_present k v d (i : nat) :
  OrderedDict.wf d ->
  OrderedDict.keys d !! i = Some k ->
  OrderedDict.values (OrderedDict.setitem k v d) = <[i := v]> (OrderedDict.values d).
Proof.
  unfold OrderedDict.wf. revert i.
  induction d as [|[k' v'] d IH]; simpl; intros i Hwf Hi.
  - destruct i; discriminate.
  - apply NoDup_cons in Hwf as [Hfresh Hwf].
    destruct (String.eqb_spec k k') as [->|Hne]; simpl.
    + destruct i as [|i]; [reflexivity|]. simpl in Hi.
      exfalso. apply Hfresh. eapply list_elem_of_lookup_2. exact Hi.
    + destruct i as [|i]; simpl in Hi; [congruence|].
      simpl. f_equal. apply IH; assumption.
Qed.

Lemma setitem_wf k v d : OrderedDict.wf d -> OrderedDict.wf (OrderedDict.setitem k v d).
Proof.
  unfold OrderedDict.wf. intros Hwf.
  destruct (decide (k ∈ OrderedDict.keys d)) as [Hin|Hout].
  - rewrite setitem_keys_present; assumption.
  - rewrite setitem_fresh by assumption.
    unfold OrderedDict.keys. rewrite map_app. simpl.
    apply NoDup_app. repeat split; [assumption| |apply NoDup_singleton].
    intros x Hx Hx'. apply list_elem_of_singleton in Hx'. subst x. contradiction.
Qed.

Lemma delitem_keys_subset k d x :
  x ∈ OrderedDict.keys (OrderedDict.delitem k d) -> x ∈ OrderedDict.keys d.
Proof.
  induction d as [|[k' v'] d IH]; simpl; [trivial|].
  destruct (String.eqb k k'); simpl; intros H.
  - apply elem_of_cons. right. assumption.
  - apply elem_of_cons in H as [->|H]; apply elem_of_cons; [left|right]; auto.
Qed.

Lemma delitem_wf k d : OrderedDict.wf d -> OrderedDict.wf (OrderedDict.delitem k d).
Proof.
  unfold OrderedDict.wf.
  induction d as [|[k' v'] d IH]; simpl; intros Hwf; [assumption|].
  apply NoDup_cons in Hwf as [Hfresh Hwf].
  destruct (String.eqb k k'); simpl; [assumption|].
  apply NoDup_cons. split; [|apply IH; assumption].
  intros H. apply Hfresh. eapply delitem_keys_subset. exact H.
Qed.

Lemma get_setitem_same k v d : OrderedDict.get k (OrderedDict.setitem k v d) = Some v.
Proof.
  induction d as [|[k' v'] d IH]; simpl.
  - rewrite String.eqb_refl. reflexivity.
  - destruct (String.eqb k k') eqn:E; simpl.
    + rewrite String.eqb_refl. reflexivity.
    + rewrite E. exact IH.
Qed.

End OrderedDictFacts.

(** Every store that the methods can produce has pairwise distinct keys. *)
Lemma PolicyStore_init_wf : OrderedDict.wf (PolicyStore._policies PolicyStore.init).
Proof. apply NoDup_nil_2. Qed.

Lemma PolicyStore_add_wf (store : PolicyStore.t) (p : Policy) :
  OrderedDict.wf (PolicyStore._policies store) ->
  OrderedDict.wf (PolicyStore._policies (PolicyStore.add store p)).
Proof. apply setitem_wf. Qed.

Lemma PolicyStore_delete_wf (store : PolicyStore.t) (id : string) :
  OrderedDict.wf (PolicyStore._policies store) ->
  OrderedDict.wf (PolicyStore._policies (fst (PolicyStore.delete store id))).
Proof.
  intros H. unfold PolicyStore.delete.
  destruct (OrderedDict.contains id _); simpl; [apply delitem_wf|]; assumption.
Qed.

Lemma store_of_wf (policies : list Policy) :
  OrderedDict.wf (PolicyStore._policies (store_of policies)).
Proof.
  unfold store_of. generalize PolicyStore_init_wf. generalize PolicyStore.init.
  induction policies as [|p ps IH]; simpl; intros store H; [assumption|].
  apply IH, PolicyStore_add_wf, H.
Qed.

Lemma create_policy_stores (st : stores) (p : Policy) :
  create_policy st {| request_policy_id := policy_id p;
                      request_conditions := conditions p;
                      request_action := action p |}
  = (p, {| policy_store := PolicyStore.add (policy_store st) p;
           connection_store := connection_store st |}).
Proof. destruct p. reflexivity. Qed.

(** ** First match *)

Section FirstMatch.

Variable other_attr : pyval -> string -> option pyval.
Variable model_str : ConnectionRequest -> string.

#[local] Abbreviation evaluate_condition := (_evaluate_condition other_attr model_str).
#[local] Abbreviation matches_policy := (_matches_policy other_attr model_str).

(** Equality and inequality tests return for every field; the four ordering
    tests return on the addresses, the port and the protocol. *)
Lemma evaluate_condition_returns (c : ConnectionRequest) (cond : PolicyCondition) :
  operator cond = EQ \/ operator cond = NE
  \/ field cond ∈ ["source_ip"; "destination_ip"; "destination_port"; "protocol"] ->
  exists b, evaluate_condition c cond = Ok b.
Proof.
  intros [Hop|[Hop|Hf]].
  - unfold _evaluate_condition. rewrite Hop.
    destruct (_get_field_value other_attr c (field cond)),
      (convert_expected cond); eauto.
  - unfold _evaluate_condition. rewrite Hop.
    destruct (_get_field_value other_attr c (field cond)),
      (convert_expected cond); eauto.
  - unfold _evaluate_condition, convert_expected.
    repeat (apply elem_of_cons in Hf as [->|Hf]); [| | | |inversion Hf];
      simpl; try destruct (PyStr.to_int (value cond));
      destruct (operator cond); simpl; eauto.
Qed.

(** Where every policy of the list is evaluated without an exception, the
    loop is the search for the first policy that matches. *)
Lemma evaluate_loop_first_match (c : ConnectionRequest) (ps : list Policy) :
  Forall (fun q => exists b, matches_policy c q = Ok b) ps ->
  evaluate_loop other_attr model_str c ps
  = Ok (snd <$> list_find (fun q => matches_policy c q = Ok true) ps).
Proof.
  induction ps as [|q ps IH]; intros H; [reflexivity|].
  apply Forall_cons in H as [[b Hb] H]. cbn [evaluate_loop list_find].
  rewrite Hb. destruct b.
  - rewrite decide_True by reflexivity. reflexivity.
  - rewrite decide_False by discriminate. rewrite (IH H).
    destruct (list_find _ ps) as [[i r]|]; reflexivity.
Qed.

(** The policy returned stands no later than any policy that matches:
    position alone decides between two matching policies. *)
Lemma evaluate_loop_lowest_index (c : ConnectionRequest) (ps : list Policy)
  (i : nat) (p q : Policy) :
  evaluate_loop other_attr model_str c ps = Ok (Some q) ->
  ps !! i = Some p ->
  matches_policy c p = Ok true ->
  exists k, ps !! k = Some q /\ (k <= i)%nat.
Proof.
  intros Hq Hi Hp.
  apply evaluate_loop_Some in Hq as (k & Hk & _ & Hbefore).
  exists k. split; [assumption|].
  destruct (decide (i < k)%nat) as [Hik|Hik]; [|lia].
  specialize (Hbefore i p Hi Hik). congruence.
Qed.

End FirstMatch.

(** ** The engine: claims *)

Section EngineClaims.

Variable other_attr : pyval -> string -> option pyval.
Variable model_str : ConnectionRequest -> string.

#[local] Abbreviation get_field_value := (_get_field_value other_attr).
#[local] Abbreviation evaluate_condition := (_evaluate_condition other_attr model_str).
#[local] Abbreviation matches_policy := (_matches_policy other_attr model_str).

(** C1.  The store holds [recent_policy], whose only condition is
    [timestamp > "2024-01-01 00:00:00"], and after it [catch_all_policy],
    which has no condition.  For every connection the second policy
    matches and is the first whose conditions all hold, yet [evaluate] does
    not return it: the condition of the first policy raises [TypeError],
    and the exception leaves [evaluate]. *)
Theorem evaluate_raises_before_the_matching_policy (c : ConnectionRequest) :
  PolicyStore.get_all (store_of [recent_policy; catch_all_policy])
  = [recent_policy; catch_all_policy]
  /\ matches_policy c recent_policy = Raise TypeError
  /\ matches_policy c catch_all_policy = Ok true
  /\ evaluate other_attr model_str (store_of [recent_policy; catch_all_policy]) c
     = Raise TypeError.
Proof. repeat split; reflexivity. Qed.

(** C4.  A condition that orders the field [timestamp] against its literal
    raises [TypeError] for each of the four ordering operators, for every
    connection and every literal: the actual value is a [datetime], the
    expected value is still a [str], and the two have no ordering. *)
Theorem ordering_on_timestamp_raises (c : ConnectionRequest) (literal : string) :
  evaluate_condition c {| field := "timestamp"; operator := GT; value := literal |}
  = Raise TypeError
  /\ evaluate_condition c {| field := "timestamp"; operator := LT; value := literal |}
     = Raise TypeError
  /\ evaluate_condition c {| field := "timestamp"; operator := GE; value := literal |}
     = Raise TypeError
  /\ evaluate_condition c {| field := "timestamp"; operator := LE; value := literal |}
     = Raise TypeError.
Proof. repeat split; reflexivity. Qed.

(** C5, amended.  A condition whose field path does not resolve, that is, a
    [getattr] of the chain raises [AttributeError] (an unknown segment, or an
    attribute that the value reached does not have), is false for every
    operator, [!=] included; and so is a condition on [destination_port]
    whose literal [int()] rejects.  A descent that Python resolves is not
    such a path. *)
Theorem unresolved_path_or_bad_port_literal_is_false
  (c : ConnectionRequest) (cond : PolicyCondition) :
  getattr_path other_attr (VConn c) (PyStr.split_dot (field cond)) = None
  \/ (field cond = "destination_port" /\ PyStr.to_int (value cond) = None) ->
  evaluate_condition c cond = Ok false.
Proof.
  intros [H|[Hf Hv]].
  - apply evaluate_condition_no_value. unfold _get_field_value. rewrite H. reflexivity.
  - apply evaluate_condition_no_expected.
    rewrite convert_expected_port, Hv by assumption. reflexivity.
Qed.

(** C6.  With both values at hand, [==] and [!=] compare [str(actual)] with
    [str(expected)]; so for every connection, a port 443 on it makes the
    condition [destination_port != "443"] false (and [==] true), the text
    of the integer 443 being the text of the literal. *)
Theorem equality_compares_text
  (c : ConnectionRequest) (cond : PolicyCondition) (e : expected) :
  get_field_value c (field cond) <> VNone ->
  convert_expected cond = Some e ->
  (operator cond = EQ ->
   evaluate_condition c cond
   = Ok (String.eqb (py_str model_str (get_field_value c (field cond)))
                    (expected_str e)))
  /\ (operator cond = NE ->
      evaluate_condition c cond
      = Ok (negb (String.eqb (py_str model_str (get_field_value c (field cond)))
                             (expected_str e))))
  /\ (forall c' : ConnectionRequest, destination_port c' = 443%Z ->
      py_str model_str (get_field_value c' "destination_port") = "443"
      /\ evaluate_condition c' port_is_not_443 = Ok false
      /\ evaluate_condition c' port_is_443 = Ok true).
Proof.
  intros Ha He. split; [|split].
  - intros Hop. rewrite (evaluate_condition_operator _ _ _ _ e Ha He), Hop. reflexivity.
  - intros Hop. rewrite (evaluate_condition_operator _ _ _ _ e Ha He), Hop. reflexivity.
  - intros c' Hport.
    unfold _evaluate_condition, port_is_not_443, port_is_443. simpl.
    rewrite Hport. repeat split; reflexivity.
Qed.

(** C8.  A path without a dot that resolves to a [Protocol] member yields
    the member's value, a string; in particular the field [protocol] yields
    "TCP" or "UDP".  A path with a dot yields what the chain of [getattr]
    resolves to, as it is: a member reached that way stays a member. *)
Theorem enum_unwrapped_only_without_dot (c : ConnectionRequest) (f : string) :
  (forall p : Protocol,
      PyStr.contains_dot f = false ->
      py_getattr other_attr (VConn c) f = Some (VProtocol p) ->
      get_field_value c f = VStr (Protocol_value p))
  /\ get_field_value c "protocol" = VStr (Protocol_value (protocol c))
  /\ (forall v : pyval,
         PyStr.contains_dot f = true ->
         getattr_path other_attr (VConn c) (PyStr.split_dot f) = Some v ->
         get_field_value c f = v).
Proof.
  split; [|split].
  - intros p Hdot Hres. rewrite get_field_value_single, Hres by assumption.
    reflexivity.
  - reflexivity.
  - intros v Hdot Hres. rewrite get_field_value_dotted, Hres by assumption.
    reflexivity.
Qed.

End EngineClaims.

(** C7.  The condition [timestamp > "2024-01-01 00:00:00"] raises [TypeError]
    on a connection of June 2023 and on one of 15 January 2024 alike, and so
    does [<]: the timestamp is not compared chronologically with the literal,
    it is not compared at all. *)
Theorem timestamp_ordering_is_not_chronological
  (other_attr : pyval -> string -> option pyval)
  (model_str : ConnectionRequest -> string) :
  _evaluate_condition other_attr model_str earlier_connection after_2024
  = Raise TypeError
  /\ _evaluate_condition other_attr model_str sample_connection after_2024
     = Raise TypeError
  /\ _evaluate_condition other_attr model_str earlier_connection
       {| field := "timestamp"; operator := LT; value := "2024-01-01 00:00:00" |}
     = Raise TypeError
  /\ _evaluate_condition other_attr model_str sample_connection
       {| field := "timestamp"; operator := LT; value := "2024-01-01 00:00:00" |}
     = Raise TypeError.
Proof. repeat split; reflexivity. Qed.

(** The four ordering operators compare the port with the parsed literal as
    integers. *)
Lemma ordering_on_port_is_numeric
  (other_attr : pyval -> string -> option pyval)
  (model_str : ConnectionRequest -> string)
  (c : ConnectionRequest) (literal : string) (n : Z) :
  PyStr.to_int literal = Some n ->
  let test op := _evaluate_condition other_attr model_str c
                   {| field := "destination_port"; operator := op; value := literal |} in
  test GT = Ok (destination_port c >? n)%Z
  /\ test LT = Ok (destination_port c <? n)%Z
  /\ test GE = Ok (destination_port c >=? n)%Z
  /\ test LE = Ok (destination_port c <=? n)%Z.
Proof.
  intros Hn. unfold _evaluate_condition, convert_expected. simpl. rewrite Hn.
  repeat split; reflexivity.
Qed.

(** On the addresses and on the protocol they compare the field with the
    literal as strings, character by character. *)
Lemma ordering_on_text_is_lexicographic
  (other_attr : pyval -> string -> option pyval)
  (model_str : ConnectionRequest -> string)
  (c : ConnectionRequest) (f : string) (s literal : string) :
  (f = "source_ip" /\ s = source_ip c)
  \/ (f = "destination_ip" /\ s = destination_ip c)
  \/ (f = "protocol" /\ s = Protocol_value (protocol c)) ->
  let test op := _evaluate_condition other_attr model_str c
                   {| field := f; operator := op; value := literal |} in
  test GT = Ok (match String.compare s literal with Gt => true | _ => false end)
  /\ test LT = Ok (String.ltb s literal)
  /\ test GE = Ok (match String.compare s literal with Lt => false | _ => true end)
  /\ test LE = Ok (String.leb s literal).
Proof.
  intros [[-> ->]|[[-> ->]|[-> ->]]]; unfold String.ltb, String.leb; simpl;
    repeat split; unfold _evaluate_condition, py_lt, py_le; simpl;
    destruct (String.compare _ literal); reflexivity.
Qed.

(** ** The decision of [submit_connection] *)

Section HandlerClaims.

Variable other_attr : pyval -> string -> option pyval.
Variable model_str : ConnectionRequest -> string.

#[local] Abbreviation engine_evaluate := (evaluate other_attr model_str).
#[local] Abbreviation submit := (submit_connection other_attr model_str).

(** The handler returns whenever the engine does, with the action and the
    identifier of [determine_action], the rounded score in the response and
    the score itself in the stored record. *)
Lemma submit_connection_returns
  (st : stores) (id : string) (score : float) (request : ConnectionRequest)
  (matched : option Policy) :
  engine_evaluate (policy_store st) request = Ok matched ->
  exists resp st',
    submit st id score request = Ok (resp, st')
    /\ response_connection_id resp = id
    /\ (response_decision resp, response_matched_policy resp)
       = determine_action matched score
    /\ response_anomaly_score resp = PyFloat.round2 score
    /\ policy_store st' = policy_store st
    /\ exists detail,
         ConnectionStore.get (connection_store st') id = Some detail
         /\ anomaly_score detail = score
         /\ decision detail = response_decision resp
         /\ matched_policy detail = response_matched_policy resp.
Proof.
  intros H. unfold submit_connection. rewrite H. simpl.
  destruct (determine_action matched score) as [act mid].
  eexists _, _. split; [reflexivity|]. simpl.
  repeat split.
  eexists. split; [apply get_setitem_same|]. repeat split.
Qed.

(** C2.  When the engine matches a policy, the decision is the action of
    the policy, except that [allow] becomes [alert] when the score is
    greater than 0.8; the decision differs from the policy's action exactly
    in that case, so [block] and [alert] are never altered; a score of 0.80
    changes nothing and a score of 0.81 escalates [allow]. *)
Theorem allow_escalates_exactly_above_threshold
  (st : stores) (id : string) (score : float) (request : ConnectionRequest)
  (p : Policy) :
  engine_evaluate (policy_store st) request = Ok (Some p) ->
  exists resp st',
    submit st id score request = Ok (resp, st')
    /\ response_matched_policy resp = Some (policy_id p)
    /\ response_decision resp
       = (if (0.8 <? score)%float && bool_decide (action p = ALLOW)
          then ALERT else action p)
    /\ (response_decision resp <> action p
        <-> action p = ALLOW /\ (0.8 <? score)%float = true)
    /\ (score = 0.80%float -> response_decision resp = action p)
    /\ (score = 0.81%float -> action p = ALLOW -> response_decision resp = ALERT).
Proof.
  intros H.
  destruct (submit_connection_returns st id score request _ H)
    as (resp & st' & Hsub & _ & Hact & _).
  exists resp, st'. split; [exact Hsub|].
  unfold determine_action in Hact.
  injection Hact as Hdec Hid. rewrite Hdec, Hid.
  split; [reflexivity|]. split; [reflexivity|].
  split; [|split].
  - destruct (action p), (0.8 <? score)%float; simpl;
      (split;
       [ intros Hn; first [ split; reflexivity | exfalso; apply Hn; reflexivity ]
       | intros [Ha Hc]; congruence ]).
  - intros ->. destruct (action p); reflexivity.
  - intros -> ->. reflexivity.
Qed.

(** C3.  When the engine matches no policy, the decision is [block] and no
    policy identifier is reported, for every score; the stored record says
    the same. *)
Theorem no_match_blocks
  (st : stores) (id : string) (score : float) (request : ConnectionRequest) :
  engine_evaluate (policy_store st) request = Ok None ->
  exists resp st',
    submit st id score request = Ok (resp, st')
    /\ response_decision resp = BLOCK
    /\ response_matched_policy resp = None
    /\ exists detail,
         ConnectionStore.get (connection_store st') id = Some detail
         /\ decision detail = BLOCK /\ matched_policy detail = None.
Proof.
  intros H.
  destruct (submit_connection_returns st id score request _ H)
    as (resp & st' & Hsub & _ & Hact & _ & _ & detail & Hget & _ & Hd & Hm).
  exists resp, st'. split; [exact Hsub|].
  unfold determine_action in Hact. simpl in Hact.
  rewrite andb_false_r in Hact. injection Hact as Hdec Hid.
  repeat split; try assumption.
  exists detail. repeat split; congruence.
Qed.

(** C9, amended.  Whenever the engine returns, the handler returns a
    response that carries the score rounded to two decimals,
    [round(anomaly_score, 2)], next to the final action and the identifier
    of the matched policy; the score itself, not rounded, is what the
    stored record of the connection keeps. *)
Theorem response_score_is_rounded_and_record_score_is_exact
  (st : stores) (id : string) (score : float) (request : ConnectionRequest)
  (matched : option Policy) :
  engine_evaluate (policy_store st) request = Ok matched ->
  exists resp st',
    submit st id score request = Ok (resp, st')
    /\ response_anomaly_score resp = PyFloat.round2 score
    /\ (response_decision resp, response_matched_policy resp)
       = determine_action matched score
    /\ exists detail,
         ConnectionStore.get (connection_store st') id = Some detail
         /\ anomaly_score detail = score
         /\ decision detail = response_decision resp
         /\ matched_policy detail = response_matched_policy resp.
Proof.
  intros He.
  destruct (submit_connection_returns st id score request _ He)
    as (resp & st' & Hsub & _ & Hact & Hround & _ & Hdetail).
  exists resp, st'. repeat split; assumption.
Qed.

End HandlerClaims.

(** ** The policy store *)

(** C10.  Adding a policy whose identifier the store already holds, at index
    [i] of the insertion order, puts the new policy at index [i] of [get_all]
    and leaves every other index, the length and the keys as they were: no
    second entry appears and the policy keeps its place in the scan of the
    engine.  [add] is a total function: it does not raise.  The same holds
    through the handler [create_policy]. *)
Theorem add_existing_replaces_in_place (store : PolicyStore.t) (p : Policy) (i : nat) :
  OrderedDict.wf (PolicyStore._policies store) ->
  OrderedDict.keys (PolicyStore._policies store) !! i = Some (policy_id p) ->
  let store' := PolicyStore.add store p in
  PolicyStore.get_all store' = <[i := p]> (PolicyStore.get_all store)
  /\ PolicyStore.get_all store' !! i = Some p
  /\ (forall j : nat, j <> i ->
        PolicyStore.get_all store' !! j = PolicyStore.get_all store !! j)
  /\ length (PolicyStore.get_all store') = length (PolicyStore.get_all store)
  /\ OrderedDict.keys (PolicyStore._policies store')
     = OrderedDict.keys (PolicyStore._policies store)
  /\ OrderedDict.wf (PolicyStore._policies store')
  /\ (forall cs : ConnectionStore.t,
        list_policies
          (snd (create_policy {| policy_store := store; connection_store := cs |}
                  {| request_policy_id := policy_id p;
                     request_conditions := conditions p;
                     request_action := action p |}))
        = <[i := p]> (PolicyStore.get_all store)).
Proof.
  intros Hwf Hi store'.
  assert (Hall : PolicyStore.get_all store' = <[i := p]> (PolicyStore.get_all store))
    by (apply setitem_values_present; assumption).
  assert (Hlen : (i < length (PolicyStore.get_all store))%nat).
  { apply lookup_lt_Some in Hi. unfold PolicyStore.get_all, OrderedDict.values.
    unfold OrderedDict.keys in Hi. rewrite length_map in Hi |- *. exact Hi. }
  split; [exact Hall|]. rewrite Hall.
  split; [apply list_lookup_insert_eq; exact Hlen|].
  split; [intros j Hj; apply list_lookup_insert_ne; congruence|].
  split; [apply length_insert|].
  split; [apply setitem_keys_present; eapply list_elem_of_lookup_2; exact Hi|].
  split; [apply setitem_wf; exact Hwf|].
  intros cs. rewrite create_policy_stores. exact Hall.
Qed.

(** A new identifier, by contrast, goes to the end of the list. *)
Lemma add_new_appends (store : PolicyStore.t) (p : Policy) :
  policy_id p ∉ OrderedDict.keys (PolicyStore._policies store) ->
  PolicyStore.get_all (PolicyStore.add store p) = (PolicyStore.get_all store ++ [p])%list.
Proof.
  intros H. unfold PolicyStore.get_all, PolicyStore.add, OrderedDict.values. simpl.
  rewrite setitem_fresh by assumption. rewrite map_app. reflexivity.
Qed.

(** ** The claims at concrete inputs *)

(** C5, as stated, fails: descending into a value that is not composite
    does not always fail.  An [int] has the attribute [real], a [datetime]
    the attribute [year] and a [Protocol] member the attribute [value], so
    these paths resolve, and a [!=] condition on them is true. *)
Lemma descent_into_scalar_resolves_and_ne_holds :
  getattr_path data_attr (VConn sample_connection)
    (PyStr.split_dot "destination_port.real") = Some (VInt 443)
  /\ _evaluate_condition data_attr opaque_model_str sample_connection
       {| field := "destination_port.real"; operator := NE; value := "any" |}
     = Ok true
  /\ _evaluate_condition data_attr opaque_model_str sample_connection
       {| field := "timestamp.year"; operator := NE; value := "any" |}
     = Ok true
  /\ _evaluate_condition data_attr opaque_model_str sample_connection
       {| field := "protocol.value"; operator := NE; value := "any" |}
     = Ok true
  /\ _evaluate_condition no_other_attr opaque_model_str sample_connection
       {| field := "protocol.value"; operator := NE; value := "any" |}
     = Ok true.
Proof. repeat split; reflexivity. Qed.

(** A path that names no attribute, a path that descends into the integer
    port, and a port literal that is no integer: all false. *)
Lemma unresolved_path_or_bad_port_literal_witness :
  cond_on {| field := "nonexistent"; operator := NE; value := "any" |} = Ok false
  /\ cond_on {| field := "destination_port.foo"; operator := NE; value := "any" |}
     = Ok false
  /\ cond_on {| field := "destination_port"; operator := EQ; value := "invalid" |}
     = Ok false.
Proof.
  split; [|split];
    apply unresolved_path_or_bad_port_literal_is_false;
    [ left; reflexivity | left; reflexivity | right; split; reflexivity ].
Defined.

(** Port 443 against the literal "443" on the connection of the test suite. *)
Lemma equality_compares_text_witness :
  cond_on port_is_not_443 = Ok false /\ cond_on port_is_443 = Ok true.
Proof.
  destruct (equality_compares_text no_other_attr opaque_model_str
              sample_connection port_is_not_443 (EInt 443))
    as (_ & Hne & H443); [discriminate | reflexivity |].
  split; [exact (Hne eq_refl)|].
  destruct (H443 sample_connection eq_refl) as (_ & _ & Heq). exact Heq.
Defined.

(** A matching [allow] policy and a score of 0.81: [alert]. *)
Lemma allow_escalates_witness :
  exists resp st',
    submit_connection no_other_attr opaque_model_str (stores_of [allow_443])
      "c-1" 0.81 sample_connection = Ok (resp, st')
    /\ response_decision resp = ALERT
    /\ response_matched_policy resp = Some "allow-443".
Proof.
  destruct (allow_escalates_exactly_above_threshold no_other_attr opaque_model_str
              (stores_of [allow_443]) "c-1" 0.81 sample_connection allow_443 eq_refl)
    as (resp & st' & Hsub & Hid & Hdec & _).
  exists resp, st'. split; [exact Hsub|]. split; [rewrite Hdec; reflexivity|exact Hid].
Defined.

(** A store whose only policy asks for UDP, a TCP connection and a score of
    0.95: [block], no policy reported. *)
Lemma no_match_blocks_witness :
  exists resp st',
    submit_connection no_other_attr opaque_model_str (stores_of [udp_only])
      "c-2" 0.95 sample_connection = Ok (resp, st')
    /\ response_decision resp = BLOCK
    /\ response_matched_policy resp = None.
Proof.
  destruct (no_match_blocks no_other_attr opaque_model_str
              (stores_of [udp_only]) "c-2" 0.95 sample_connection eq_refl)
    as (resp & st' & Hsub & Hdec & Hid & _).
  exists resp, st'. repeat split; assumption.
Defined.

(** C9, as stated, fails: with no policy stored and a score of 0.123456 the
    response carries 0.12. *)
Lemma response_score_differs_from_supplied_score :
  exists resp st',
    submit_connection no_other_attr opaque_model_str empty_stores
      "c-3" 0.123456 sample_connection = Ok (resp, st')
    /\ response_anomaly_score resp = 0.12%float
    /\ response_anomaly_score resp <> 0.123456%float.
Proof.
  eexists _, _. split; [reflexivity|]. simpl. split.
  - vm_compute. reflexivity.
  - intros H. apply (f_equal Prim2SF) in H. vm_compute in H. discriminate H.
Qed.

Lemma response_score_is_rounded_witness :
  exists resp st',
    submit_connection no_other_attr opaque_model_str empty_stores
      "c-3" 0.123456 sample_connection = Ok (resp, st')
    /\ response_anomaly_score resp = 0.12%float
    /\ exists detail,
         ConnectionStore.get (connection_store st') "c-3" = Some detail
         /\ anomaly_score detail = 0.123456%float.
Proof.
  destruct (response_score_is_rounded_and_record_score_is_exact
              no_other_attr opaque_model_str empty_stores
              "c-3" 0.123456 sample_connection None eq_refl)
    as (resp & st' & Hsub & Hround & _ & detail & Hget & Hscore & _).
  exists resp, st'. split; [exact Hsub|]. split.
  - rewrite Hround. vm_compute. reflexivity.
  - exists detail. split; assumption.
Defined.

(** Three policies stored, then a second policy under the identifier of the
    middle one: it takes the middle place. *)
Lemma add_existing_replaces_in_place_witness :
  PolicyStore.get_all
    (PolicyStore.add (store_of [udp_only; allow_443; catch_all_policy])
       allow_443_replacement)
  = [udp_only; allow_443_replacement; catch_all_policy].
Proof.
  destruct (add_existing_replaces_in_place
              (store_of [udp_only; allow_443; catch_all_policy])
              allow_443_replacement 1%nat (store_of_wf _) eq_refl)
    as (Hall & _).
  rewrite Hall. reflexivity.
Defined.

(** A dotted path that reaches a [Protocol] member keeps the member, and the
    text of the member is not the text of its value. *)
Example dotted_path_keeps_the_member :
  _get_field_value data_attr sample_connection "protocol.__class__.UDP"
  = VProtocol UDP
  /\ _get_field_value data_attr sample_connection "protocol" = VStr "TCP"
  /\ _get_field_value data_attr sample_connection "protocol.value" = VStr "TCP"
  /\ _evaluate_condition data_attr opaque_model_str sample_connection
       {| field := "protocol.__class__.UDP"; operator := EQ; value := "UDP" |}
     = Ok false
  /\ _evaluate_condition data_attr opaque_model_str sample_connection
       {| field := "protocol.__class__.UDP"; operator := EQ; value := "Protocol.UDP" |}
     = Ok true.
Proof. repeat split; reflexivity. Qed.

(** Dotted paths into the port and the timestamp: the literal is not
    converted, so equality works through the text and ordering raises. *)
Example dotted_paths_into_scalars :
  _evaluate_condition data_attr opaque_model_str sample_connection
    {| field := "destination_port.real"; operator := EQ; value := "443" |} = Ok true
  /\ _evaluate_condition data_attr opaque_model_str sample_connection
       {| field := "destination_port.real"; operator := GT; value := "80" |}
     = Raise TypeError
  /\ _evaluate_condition data_attr opaque_model_str sample_connection
       {| field := "timestamp.year"; operator := EQ; value := "2024" |} = Ok true
  /\ _evaluate_condition data_attr opaque_model_str sample_connection
       {| field := "timestamp.year"; operator := GE; value := "2024" |}
     = Raise TypeError.
Proof. repeat split; reflexivity. Qed.

(** * Further properties of the stores, the engine and the handlers *)

(** ** Lookup in the ordered dictionary *)

Section OrderedDictLookup.

Context {V : Type}.
Implicit Types (d : OrderedDict.t V) (k : string) (v : V).

Lemma get_None k d : OrderedDict.get k d = None <-> k ∉ OrderedDict.keys d.
Proof.
  induction d as [|[k' v'] d IH]; simpl.
  - split; [intros _ H; inversion H|reflexivity].
  - rewrite not_elem_of_cons. destruct (String.eqb_spec k k') as [->|Hne].
    + split; [discriminate|]. intros [H _]. contradiction.
    + rewrite IH. tauto.
Qed.

Lemma contains_keys k d : OrderedDict.contains k d = true <-> k ∈ OrderedDict.keys d.
Proof.
  unfold OrderedDict.contains.
  destruct (OrderedDict.get k d) as [v|] eqn:E.
  - split; [intros _|reflexivity].
    destruct (decide (k ∈ OrderedDict.keys d)) as [H|H]; [exact H|].
    apply get_None in H. congruence.
  - split; [discriminate|]. intros H. apply get_None in E. contradiction.
Qed.

Lemma get_setitem_other k k' v d :
  k <> k' -> OrderedDict.get k' (OrderedDict.setitem k v d) = OrderedDict.get k' d.
Proof.
  intros Hne. induction d as [|[k0 v0] d IH]; simpl.
  - destruct (String.eqb_spec k' k); [congruence|reflexivity].
  - destruct (String.eqb_spec k k0) as [->|Hk]; simpl.
    + destruct (String.eqb_spec k' k0); [congruence|reflexivity].
    + destruct (String.eqb k' k0); [reflexivity|exact IH].
Qed.

Lemma get_delitem_other k k' d :
  k <> k' -> OrderedDict.get k' (OrderedDict.delitem k d) = OrderedDict.get k' d.
Proof.
  intros Hne. induction d as [|[k0 v0] d IH]; simpl; [reflexivity|].
  destruct (String.eqb_spec k k0) as [->|Hk]; simpl.
  - destruct (String.eqb_spec k' k0); [congruence|reflexivity].
  - destruct (String.eqb k' k0); [reflexivity|exact IH].
Qed.

Lemma get_delitem_same k d :
  OrderedDict.wf d -> OrderedDict.get k (OrderedDict.delitem k d) = None.
Proof.
  unfold OrderedDict.wf.
  induction d as [|[k0 v0] d IH]; simpl; intros Hwf; [reflexivity|].
  apply NoDup_cons in Hwf as [Hfresh Hwf].
  destruct (String.eqb_spec k k0) as [->|Hk]; simpl.
  - apply get_None. exact Hfresh.
  - destruct (String.eqb_spec k k0); [contradiction|]. apply IH, Hwf.
Qed.

(** Deleting the key that stands at index [i] removes the entry at [i]. *)
Lemma delitem_at k d (i : nat) :
  OrderedDict.wf d -> OrderedDict.keys d !! i = Some k ->
  OrderedDict.delitem k d = delete i d.
Proof.
  unfold OrderedDict.wf. revert i.
  induction d as [|[k0 v0] d IH]; simpl; intros i Hwf Hi.
  - destruct i; discriminate.
  - apply NoDup_cons in Hwf as [Hfresh Hwf].
    destruct (String.eqb_spec k k0) as [->|Hk].
    + destruct i as [|i]; [reflexivity|]. simpl in Hi.
      exfalso. apply Hfresh. eapply list_elem_of_lookup_2. exact Hi.
    + destruct i as [|i]; simpl in Hi; [congruence|].
      simpl. f_equal. apply IH; assumption.
Qed.

Lemma get_Some_lookup k v d :
  OrderedDict.get k d = Some v ->
  exists i : nat, d !! i = Some (k, v).
Proof.
  induction d as [|[k0 v0] d IH]; simpl; [discriminate|].
  destruct (String.eqb_spec k k0) as [->|Hk].
  - intros [= ->]. exists 0%nat. reflexivity.
  - intros H. destruct (IH H) as [i Hi]. exists (S i). exact Hi.
Qed.

Lemma lookup_get_Some k v d (i : nat) :
  OrderedDict.wf d -> d !! i = Some (k, v) -> OrderedDict.get k d = Some v.
Proof.
  unfold OrderedDict.wf. revert i.
  induction d as [|[k0 v0] d IH]; simpl; intros i Hwf Hi.
  - destruct i; discriminate.
  - apply NoDup_cons in Hwf as [Hfresh Hwf].
    destruct i as [|i]; simpl in Hi.
    + injection Hi as -> ->. rewrite String.eqb_refl. reflexivity.
    + destruct (String.eqb_spec k k0) as [->|Hk].
      * exfalso. apply Hfresh. unfold OrderedDict.keys.
        apply list_elem_of_fmap. exists (k0, v). split; [reflexivity|].
        eapply list_elem_of_lookup_2. exact Hi.
      * eapply IH; eassumption.
Qed.

End OrderedDictLookup.

(** ** The policy store: lookup, deletion, order *)

Lemma setitem_setitem {V : Type} (k : string) (v1 v2 : V) (d : OrderedDict.t V) :
  OrderedDict.setitem k v2 (OrderedDict.setitem k v1 d) = OrderedDict.setitem k v2 d.
Proof.
  induction d as [|[k0 v0] d IH]; simpl.
  - rewrite String.eqb_refl. reflexivity.
  - destruct (String.eqb k k0) eqn:E; simpl.
    + rewrite String.eqb_refl. reflexivity.
    + rewrite E, IH. reflexivity.
Qed.

Lemma keyed_add (store : PolicyStore.t) (p : Policy) :
  keyed store -> keyed (PolicyStore.add store p).
Proof.
  unfold keyed, PolicyStore.add. simpl.
  induction (PolicyStore._policies store) as [|[k0 v0] d IH]; simpl; intros H.
  - repeat constructor.
  - apply Forall_cons in H as [H0 H].
    destruct (String.eqb (policy_id p) k0); constructor; auto.
Qed.

Lemma keyed_delete (store : PolicyStore.t) (id : string) :
  keyed store -> keyed (fst (PolicyStore.delete store id)).
Proof.
  unfold keyed, PolicyStore.delete.
  destruct (OrderedDict.contains id _); simpl; [|trivial].
  induction (PolicyStore._policies store) as [|[k0 v0] d IH]; simpl; intros H.
  - constructor.
  - apply Forall_cons in H as [H0 H].
    destruct (String.eqb id k0); [exact H|]. constructor; auto.
Qed.

(** Under the two invariants, the identifiers of the stored policies are the
    keys. *)
Lemma keyed_ids (store : PolicyStore.t) :
  keyed store ->
  map policy_id (PolicyStore.get_all store)
  = OrderedDict.keys (PolicyStore._policies store).
Proof.
  unfold keyed, PolicyStore.get_all, OrderedDict.values, OrderedDict.keys.
  induction (PolicyStore._policies store) as [|[k0 v0] d IH]; simpl; intros H.
  - reflexivity.
  - apply Forall_cons in H as [H0 H]. simpl in H0. rewrite H0, (IH H). reflexivity.
Qed.

Lemma filter_other_ids_fresh (d : OrderedDict.t Policy) (id : string) :
  Forall (fun entry => fst entry = policy_id (snd entry)) d ->
  id ∉ OrderedDict.keys d ->
  filter (fun q => policy_id q <> id) (OrderedDict.values d) = OrderedDict.values d.
Proof.
  induction d as [|[k0 v0] d IH]; simpl; intros Hk Hid; [reflexivity|].
  apply Forall_cons in Hk as [H0 Hk]. simpl in H0.
  apply not_elem_of_cons in Hid as [Hne Hid].
  rewrite filter_cons_True by congruence. rewrite (IH Hk Hid). reflexivity.
Qed.

Lemma delitem_values_filter (d : OrderedDict.t Policy) (id : string) :
  OrderedDict.wf d ->
  Forall (fun entry => fst entry = policy_id (snd entry)) d ->
  OrderedDict.values (OrderedDict.delitem id d)
  = filter (fun q => policy_id q <> id) (OrderedDict.values d).
Proof.
  unfold OrderedDict.wf.
  induction d as [|[k0 v0] d IH]; simpl; intros Hwf Hk; [reflexivity|].
  apply NoDup_cons in Hwf as [Hfresh Hwf].
  apply Forall_cons in Hk as [H0 Hk]. simpl in H0.
  destruct (String.eqb_spec id k0) as [->|Hne].
  - rewrite filter_cons_False by (intros H; apply H; symmetry; exact H0).
    symmetry. apply filter_other_ids_fresh; assumption.
  - rewrite filter_cons_True by congruence. simpl. f_equal. apply IH; assumption.
Qed.

(** X1.  Looking up the identifier of a policy just added returns that
    policy, whether the identifier was new or not, and the lookup of every
    other identifier is what it was before the call. *)
Theorem get_after_add (store : PolicyStore.t) (p : Policy) (id : string) :
  PolicyStore.get (PolicyStore.add store p) id
  = if String.eqb id (policy_id p) then Some p else PolicyStore.get store id.
Proof.
  unfold PolicyStore.get, PolicyStore.add. simpl.
  destruct (String.eqb_spec id (policy_id p)) as [->|Hne].
  - apply get_setitem_same.
  - apply get_setitem_other. congruence.
Qed.

(** X2.  Deleting an identifier that the store holds at index [i] returns
    [True]; afterwards the identifier is not found, every other identifier
    is found as before, and [get_all] is the former list without its element
    at [i], the others in their order. *)
Theorem delete_present (store : PolicyStore.t) (id : string) (i : nat) :
  OrderedDict.wf (PolicyStore._policies store) ->
  OrderedDict.keys (PolicyStore._policies store) !! i = Some id ->
  snd (PolicyStore.delete store id) = true
  /\ PolicyStore.get (fst (PolicyStore.delete store id)) id = None
  /\ (forall id' : string, id' <> id ->
        PolicyStore.get (fst (PolicyStore.delete store id)) id'
        = PolicyStore.get store id')
  /\ PolicyStore.get_all (fst (PolicyStore.delete store id))
     = delete i (PolicyStore.get_all store).
Proof.
  intros Hwf Hi. unfold PolicyStore.delete.
  assert (Hin : OrderedDict.contains id (PolicyStore._policies store) = true).
  { apply contains_keys. eapply list_elem_of_lookup_2. exact Hi. }
  rewrite Hin. simpl. split; [reflexivity|].
  unfold PolicyStore.get, PolicyStore.get_all. simpl.
  split; [apply get_delitem_same; exact Hwf|].
  split; [intros id' Hne; apply get_delitem_other; congruence|].
  rewrite (delitem_at _ _ i Hwf Hi). unfold OrderedDict.values.
  apply (list_fmap_delete snd).
Qed.

(** X3.  Adding twice under one identifier leaves the store that the second
    call alone would leave: the last write wins and no trace of the first
    remains. *)
Theorem add_twice_last_wins (store : PolicyStore.t) (p q : Policy) :
  policy_id p = policy_id q ->
  PolicyStore.add (PolicyStore.add store p) q = PolicyStore.add store q.
Proof.
  intros H. unfold PolicyStore.add. simpl. rewrite H, setitem_setitem. reflexivity.
Qed.

(** X4.  Deleting an identifier and adding a policy under it again puts the
    policy at the end of [get_all], after everything else the store holds:
    unlike a plain [add] on a stored identifier, the policy loses its
    place. *)
Theorem readd_after_delete_goes_last (store : PolicyStore.t) (p : Policy) :
  OrderedDict.wf (PolicyStore._policies store) ->
  keyed store ->
  PolicyStore.get_all
    (PolicyStore.add (fst (PolicyStore.delete store (policy_id p))) p)
  = (filter (fun q => policy_id q <> policy_id p) (PolicyStore.get_all store)
     ++ [p])%list.
Proof.
  intros Hwf Hk.
  assert (Hall : PolicyStore.get_all (fst (PolicyStore.delete store (policy_id p)))
                 = filter (fun q => policy_id q <> policy_id p)
                     (PolicyStore.get_all store)).
  { unfold PolicyStore.delete.
    destruct (OrderedDict.contains _ _) eqn:E; simpl.
    - apply delitem_values_filter; assumption.
    - symmetry. apply filter_other_ids_fresh; [exact Hk|].
      intros Hin. apply contains_keys in Hin. congruence. }
  rewrite add_new_appends; [rewrite Hall; reflexivity|].
  unfold PolicyStore.delete.
  destruct (OrderedDict.contains _ _) eqn:E; simpl.
  - apply get_None, get_delitem_same, Hwf.
  - intros Hin. apply contains_keys in Hin. congruence.
Qed.

Lemma keyed_init : keyed PolicyStore.init.
Proof. constructor. Qed.

Lemma invariants_after_call (store : PolicyStore.t) (call : store_call) :
  OrderedDict.wf (PolicyStore._policies store) /\ keyed store ->
  OrderedDict.wf (PolicyStore._policies (apply_call store call))
  /\ keyed (apply_call store call).
Proof.
  intros [Hwf Hk]. destruct call as [p|id|]; simpl.
  - split; [apply PolicyStore_add_wf|apply keyed_add]; assumption.
  - split; [apply PolicyStore_delete_wf|apply keyed_delete]; assumption.
  - split; [apply PolicyStore_init_wf|apply keyed_init].
Qed.

Lemma invariants_after_calls (calls : list store_call) :
  OrderedDict.wf (PolicyStore._policies (after_calls calls))
  /\ keyed (after_calls calls).
Proof.
  unfold after_calls.
  assert (H0 : OrderedDict.wf (PolicyStore._policies PolicyStore.init)
               /\ keyed PolicyStore.init)
    by (split; [apply PolicyStore_init_wf|apply keyed_init]).
  revert H0. generalize PolicyStore.init.
  induction calls as [|call calls IH]; simpl; intros store H; [exact H|].
  apply IH, invariants_after_call, H.
Qed.

(** X5.  Whatever sequence of [add], [delete] and [clear] produced the
    store, no two policies of [get_all] share an identifier, every policy of
    [get_all] is the one [get] finds under its identifier, and what [get]
    finds under an identifier carries that identifier and is in [get_all]. *)
Theorem store_invariant (calls : list store_call) :
  NoDup (map policy_id (PolicyStore.get_all (after_calls calls)))
  /\ (forall p : Policy,
        p ∈ PolicyStore.get_all (after_calls calls) ->
        PolicyStore.get (after_calls calls) (policy_id p) = Some p)
  /\ (forall (id : string) (p : Policy),
        PolicyStore.get (after_calls calls) id = Some p ->
        policy_id p = id /\ p ∈ PolicyStore.get_all (after_calls calls)).
Proof.
  destruct (invariants_after_calls calls) as [Hwf Hk].
  set (store := after_calls calls) in *.
  split; [rewrite keyed_ids by exact Hk; exact Hwf|].
  split.
  - intros p Hp. unfold PolicyStore.get_all, OrderedDict.values in Hp.
    apply list_elem_of_fmap in Hp as ([k v] & -> & Hin).
    apply list_elem_of_lookup in Hin as [i Hi].
    unfold keyed in Hk. rewrite Forall_forall in Hk.
    assert (Hkv : k = policy_id v).
    { apply (Hk (k, v)). eapply list_elem_of_lookup_2. exact Hi. }
    subst k. simpl. eapply lookup_get_Some; eassumption.
  - intros id p Hget. apply get_Some_lookup in Hget as [i Hi].
    assert (Hin : (id, p) ∈ PolicyStore._policies store)
      by (eapply list_elem_of_lookup_2; exact Hi).
    unfold keyed in Hk. rewrite Forall_forall in Hk.
    split.
    + symmetry. apply (Hk (id, p)). exact Hin.
    + unfold PolicyStore.get_all, OrderedDict.values.
      apply list_elem_of_fmap. exists (id, p). split; [reflexivity|exact Hin].
Qed.

Lemma get_all_fold_add (ps : list Policy) (store : PolicyStore.t) :
  keyed store ->
  NoDup (map policy_id (PolicyStore.get_all store ++ ps)%list) ->
  PolicyStore.get_all (fold_left PolicyStore.add ps store)
  = (PolicyStore.get_all store ++ ps)%list.
Proof.
  revert store. induction ps as [|p ps IH]; simpl; intros store Hk Hnd.
  - rewrite app_nil_r. reflexivity.
  - assert (Hfresh : policy_id p ∉ OrderedDict.keys (PolicyStore._policies store)).
    { rewrite <- keyed_ids by exact Hk. rewrite map_app in Hnd. simpl in Hnd.
      apply NoDup_app in Hnd as (_ & Hdisj & _).
      intros Hin. apply (Hdisj _ Hin). apply elem_of_cons. left. reflexivity. }
    rewrite IH.
    + rewrite add_new_appends by exact Hfresh. rewrite <- app_assoc. reflexivity.
    + apply keyed_add, Hk.
    + rewrite add_new_appends by exact Hfresh. rewrite <- app_assoc. exact Hnd.
Qed.

(** X6.  Policies added one after the other under pairwise distinct
    identifiers come back from [get_all] in the order of the calls: the
    order of insertion is the order of evaluation. *)
Theorem get_all_keeps_insertion_order (ps : list Policy) :
  NoDup (map policy_id ps) ->
  PolicyStore.get_all (store_of ps) = ps.
Proof.
  intros H. unfold store_of. rewrite get_all_fold_add; [reflexivity|apply keyed_init|].
  exact H.
Qed.

(** X7.  [delete_policy] answers "not found" exactly when [get] finds no
    policy under the identifier.  When it finds one, the handler succeeds,
    leaves the connection records alone, and [list_policies] afterwards is
    the former list without the policy of that identifier, the rest in its
    order. *)
Theorem delete_policy_not_found_iff_absent (st : stores) (id : string) :
  OrderedDict.wf (PolicyStore._policies (policy_store st)) ->
  keyed (policy_store st) ->
  (delete_policy st id = None <-> PolicyStore.get (policy_store st) id = None)
  /\ (forall st' : stores,
        delete_policy st id = Some st' ->
        connection_store st' = connection_store st
        /\ PolicyStore.get (policy_store st') id = None
        /\ list_policies st'
           = filter (fun q => policy_id q <> id) (list_policies st)).
Proof.
  intros Hwf Hk. unfold delete_policy, PolicyStore.delete, PolicyStore.get.
  unfold OrderedDict.contains.
  destruct (OrderedDict.get id (PolicyStore._policies (policy_store st)))
    as [p|] eqn:E; simpl.
  - split; [split; discriminate|].
    intros st' [= <-]. simpl. split; [reflexivity|].
    split; [apply get_delitem_same; exact Hwf|].
    apply delitem_values_filter; assumption.
  - split; [split; reflexivity|]. intros st'. discriminate.
Qed.

(** ** The handlers: what a submission leaves behind *)

Section HandlerFacts.

Variable other_attr : pyval -> string -> option pyval.
Variable model_str : ConnectionRequest -> string.

#[local] Abbreviation engine_evaluate := (evaluate other_attr model_str).
#[local] Abbreviation submit := (submit_connection other_attr model_str).

(** X8.  When the engine returns, the record that [submit_connection] stores
    is found by [get_connection] under the identifier of the response; it
    carries the five fields of the request, the decision and the policy
    identifier of the response.  The records stored under other identifiers
    are found as before, the policy store is the same, and when the
    identifier was not in use the record is the last of [get_all]. *)
Theorem submit_then_get_connection
  (st : stores) (id : string) (score : float) (request : ConnectionRequest)
  (matched : option Policy) :
  engine_evaluate (policy_store st) request = Ok matched ->
  exists resp st' detail,
    submit st id score request = Ok (resp, st')
    /\ response_connection_id resp = id
    /\ get_connection st' id = Some detail
    /\ connection_id detail = id
    /\ detail_source_ip detail = source_ip request
    /\ detail_destination_ip detail = destination_ip request
    /\ detail_destination_port detail = destination_port request
    /\ detail_protocol detail = protocol request
    /\ detail_timestamp detail = timestamp request
    /\ decision detail = response_decision resp
    /\ matched_policy detail = response_matched_policy resp
    /\ policy_store st' = policy_store st
    /\ (forall id' : string, id' <> id ->
          get_connection st' id' = get_connection st id')
    /\ (get_connection st id = None ->
        ConnectionStore.get_all (connection_store st')
        = (ConnectionStore.get_all (connection_store st) ++ [detail])%list).
Proof.
  intros H. unfold submit_connection. rewrite H. simpl.
  destruct (determine_action matched score) as [act mid].
  eexists _, _, _. split; [reflexivity|]. simpl.
  split; [reflexivity|].
  split; [apply get_setitem_same|]. simpl.
  do 9 (split; [reflexivity|]).
  split.
  - intros id' Hne. unfold get_connection, ConnectionStore.get. simpl.
    apply get_setitem_other. congruence.
  - intros Hnone. unfold ConnectionStore.get_all, OrderedDict.values. simpl.
    rewrite setitem_fresh by (apply get_None; exact Hnone).
    apply map_app.
Qed.

(** X10.  With a score above 0.8 no connection is allowed: whatever the
    policies say, the decision returned and stored is [alert] or [block]. *)
Theorem high_score_never_allows
  (st : stores) (id : string) (score : float) (request : ConnectionRequest)
  (resp : ConnectionResponse) (st' : stores) :
  submit st id score request = Ok (resp, st') ->
  (0.8 <? score)%float = true ->
  response_decision resp <> ALLOW
  /\ forall detail : ConnectionDetail,
       get_connection st' id = Some detail -> decision detail <> ALLOW.
Proof.
  intros Hsub Hhigh. unfold submit_connection in Hsub.
  destruct (engine_evaluate (policy_store st) request) as [matched|e]; simpl in Hsub;
    [|discriminate].
  unfold determine_action in Hsub. rewrite Hhigh in Hsub.
  assert (Hact : forall a : Action,
             (if true && bool_decide (a = ALLOW) then ALERT else a) <> ALLOW)
    by (intros []; discriminate).
  destruct matched as [p|]; injection Hsub as <- <-; simpl.
  - split; [apply Hact|]. intros detail. unfold get_connection, ConnectionStore.get.
    simpl. rewrite get_setitem_same. intros [= <-]. apply Hact.
  - split; [discriminate|]. intros detail. unfold get_connection, ConnectionStore.get.
    simpl. rewrite get_setitem_same. intros [= <-]. discriminate.
Qed.

Lemma evaluate_loop_app (c : ConnectionRequest) (l1 l2 : list Policy) :
  evaluate_loop other_attr model_str c (l1 ++ l2)%list
  = match evaluate_loop other_attr model_str c l1 with
    | Ok None => evaluate_loop other_attr model_str c l2
    | outcome => outcome
    end.
Proof.
  induction l1 as [|p l1 IH]; simpl; [reflexivity|].
  destruct (_matches_policy other_attr model_str c p) as [[|]|e]; auto.
Qed.

(** X11.  A policy added under a new identifier is consulted last: where
    the engine returned a policy or raised before the call it does the same
    after it, and where it returned nothing the outcome is that of the new
    policy alone. *)
Theorem new_policy_is_consulted_last
  (store : PolicyStore.t) (p : Policy) (c : ConnectionRequest) :
  policy_id p ∉ OrderedDict.keys (PolicyStore._policies store) ->
  engine_evaluate (PolicyStore.add store p) c
  = match engine_evaluate store c with
    | Ok None =>
        match _matches_policy other_attr model_str c p with
        | Ok true => Ok (Some p)
        | Ok false => Ok None
        | Raise e => Raise e
        end
    | outcome => outcome
    end.
Proof.
  intros Hfresh. unfold evaluate.
  rewrite add_new_appends by exact Hfresh. rewrite evaluate_loop_app.
  destruct (evaluate_loop other_attr model_str c (PolicyStore.get_all store))
    as [[q|]|e]; reflexivity.
Qed.

End HandlerFacts.

(** ** Integers and their decimal text *)

(** Replaces the test of a given character by its value. *)
Ltac eval_char f :=
  match goal with
  | |- context [f ?c] =>
      let v := eval vm_compute in (f c) in change (f c) with v
  end; cbv iota beta.

Lemma of_int_inj (n m : Z) : PyStr.of_int n = PyStr.of_int m -> n = m.
Proof.
  unfold PyStr.of_int. intros H. apply DecimalZ.to_int_inj.
  assert (Hnn : forall z, Z.to_int z <> Decimal.Pos Decimal.Nil
                          /\ Z.to_int z <> Decimal.Neg Decimal.Nil).
  { intros [|p|p]; simpl; split; try discriminate;
      intros [= E]; exact (DecimalPos.Unsigned.to_uint_nonnil p E). }
  apply (f_equal NilZero.int_of_string) in H.
  rewrite !NilZero.isi in H by apply Hnn.
  congruence.
Qed.

Lemma of_int_eqb (n m : Z) : String.eqb (PyStr.of_int n) (PyStr.of_int m) = (n =? m)%Z.
Proof.
  destruct (String.eqb_spec (PyStr.of_int n) (PyStr.of_int m)) as [H|H].
  - apply of_int_inj in H. subst. symmetry. apply Z.eqb_refl.
  - symmetry. apply Z.eqb_neq. intros ->. apply H. reflexivity.
Qed.

(** Reading printed digits after a positive accumulator. *)
Lemma scan_digits_acc (d : Decimal.uint) (acc : positive) :
  PyStr.scan_digits (NilEmpty.string_of_uint d) (Z.pos acc) true
  = Some (Z.pos (Pos.of_uint_acc d acc), "").
Proof.
  revert acc.
  induction d; intros acc; cbn [NilEmpty.string_of_uint PyStr.scan_digits].
  1: reflexivity.
  all: eval_char PyStr.digit_value.
  all: cbn [Pos.of_uint_acc]; rewrite <- IHd; f_equal; lia.
Qed.

(** Reading printed digits from the start. *)
Lemma scan_digits_uint (d : Decimal.uint) (after_digit : bool) :
  d <> Decimal.Nil \/ after_digit = true ->
  PyStr.scan_digits (NilEmpty.string_of_uint d) 0 after_digit
  = Some (Z.of_N (Pos.of_uint d), "").
Proof.
  revert after_digit.
  induction d; intros b Hb; cbn [NilEmpty.string_of_uint PyStr.scan_digits].
  1: destruct Hb as [Hb| ->]; [contradiction|reflexivity].
  all: eval_char PyStr.digit_value.
  1: change (10 * 0 + 0) with 0; rewrite IHd by (right; reflexivity); reflexivity.
  all: cbn [Pos.of_uint Z.of_N];
    match goal with
    | |- PyStr.scan_digits _ ?a _ = _ =>
        let v := eval vm_compute in a in change a with v
    end; apply scan_digits_acc.
Qed.

(** [int(str(n)) == n] *)
Lemma to_int_of_int (n : Z) : PyStr.to_int (PyStr.of_int n) = Some n.
Proof.
  unfold PyStr.of_int.
  destruct n as [|p|p]; [reflexivity| |]; cbn [Z.to_int NilZero.string_of_int];
    pose proof (DecimalPos.Unsigned.to_uint_nonnil p) as Hnn;
    pose proof (DecimalPos.Unsigned.of_to p) as Hof;
    pose proof (scan_digits_uint (Pos.to_uint p) false (or_introl Hnn)) as Hscan;
    rewrite Hof in Hscan.
  - destruct (Pos.to_uint p) eqn:E; [contradiction| ..];
      unfold PyStr.to_int;
      cbn [NilZero.string_of_uint NilEmpty.string_of_uint PyStr.skip_spaces] in *;
      eval_char PyStr.is_space; rewrite Hscan; reflexivity.
  - assert (Hs : NilZero.string_of_uint (Pos.to_uint p)
                 = NilEmpty.string_of_uint (Pos.to_uint p))
      by (destruct (Pos.to_uint p); [contradiction|reflexivity..]).
    rewrite Hs. unfold PyStr.to_int. cbn [PyStr.skip_spaces].
    eval_char PyStr.is_space. rewrite Hscan. reflexivity.
Qed.

(** ** The engine: what the operators compute, what the scans skip *)

Section EngineExtras.

Variable other_attr : pyval -> string -> option pyval.
Variable model_str : ConnectionRequest -> string.

#[local] Abbreviation get_field_value := (_get_field_value other_attr).
#[local] Abbreviation evaluate_condition := (_evaluate_condition other_attr model_str).
#[local] Abbreviation matches_policy := (_matches_policy other_attr model_str).
#[local] Abbreviation engine_evaluate := (evaluate other_attr model_str).

Lemma py_all_returns {A : Type} (f : A -> result bool) (l : list A) :
  Forall (fun x => exists b, f x = Ok b) l -> exists b, py_all f l = Ok b.
Proof.
  induction l as [|x l IH]; simpl; intros H; [eauto|].
  apply Forall_cons in H as [[b Hb] H]. rewrite Hb.
  destruct b; [apply IH, H|eauto].
Qed.

Lemma py_all_app {A : Type} (f : A -> result bool) (l1 l2 : list A) :
  Forall (fun x => f x = Ok true) l1 ->
  py_all f (l1 ++ l2)%list = py_all f l2.
Proof.
  induction l1 as [|x l1 IH]; simpl; intros H; [reflexivity|].
  apply Forall_cons in H as [Hx H]. rewrite Hx. apply IH, H.
Qed.

(** X12.  Where every condition of every stored policy is an equality test
    or a test on an address, the port or the protocol, [evaluate] returns
    for every connection, and what it returns is the first policy of
    [get_all] whose conditions are all true, or nothing when there is
    none. *)
Theorem evaluate_returns_first_match_on_returning_policies
  (store : PolicyStore.t) (c : ConnectionRequest) :
  Forall (fun p => Forall returns_always (conditions p)) (PolicyStore.get_all store) ->
  engine_evaluate store c
  = Ok (snd <$> list_find (fun q => matches_policy c q = Ok true)
                  (PolicyStore.get_all store)).
Proof.
  intros H. unfold evaluate. apply evaluate_loop_first_match.
  eapply Forall_impl; [exact H|]. intros p Hp. apply py_all_returns.
  eapply Forall_impl; [exact Hp|]. intros cond Hcond.
  apply evaluate_condition_returns. exact Hcond.
Qed.

(** X13.  On [destination_port], with a literal that [int()] reads as [n],
    each of the six operators compares the port of the connection with [n]
    as integers; so the literals "443", " 443 ", "+443" and "0443" all stand
    for the same port. *)
Theorem port_conditions_compare_integers
  (c : ConnectionRequest) (literal : string) (n : Z) :
  PyStr.to_int literal = Some n ->
  let test op := evaluate_condition c
                   {| field := "destination_port"; operator := op; value := literal |} in
  test EQ = Ok (destination_port c =? n)%Z
  /\ test NE = Ok (negb (destination_port c =? n)%Z)
  /\ test GT = Ok (destination_port c >? n)%Z
  /\ test LT = Ok (destination_port c <? n)%Z
  /\ test GE = Ok (destination_port c >=? n)%Z
  /\ test LE = Ok (destination_port c <=? n)%Z.
Proof.
  intros Hn test.
  destruct (ordering_on_port_is_numeric other_attr model_str c literal n Hn)
    as (Hgt & Hlt & Hge & Hle).
  split; [|split; [|repeat split; assumption]].
  - unfold test, _evaluate_condition, convert_expected. simpl. rewrite Hn.
    simpl. rewrite of_int_eqb. reflexivity.
  - unfold test, _evaluate_condition, convert_expected. simpl. rewrite Hn.
    simpl. rewrite of_int_eqb. reflexivity.
Qed.

(** X14.  A condition written with the decimal text of the connection's own
    port holds for [==], [>=] and [<=] and fails for [!=], [>] and [<]:
    printing the port and reading the text back gives the port. *)
Theorem port_matches_its_own_text (c : ConnectionRequest) :
  let test op := evaluate_condition c
                   {| field := "destination_port"; operator := op;
                      value := PyStr.of_int (destination_port c) |} in
  test EQ = Ok true /\ test NE = Ok false
  /\ test GE = Ok true /\ test LE = Ok true
  /\ test GT = Ok false /\ test LT = Ok false.
Proof.
  intros test.
  destruct (ordering_on_port_is_numeric other_attr model_str c
              (PyStr.of_int (destination_port c)) (destination_port c)
              (to_int_of_int _))
    as (Hgt & Hlt & Hge & Hle).
  assert (Heq : String.eqb (PyStr.of_int (destination_port c))
                           (PyStr.of_int (destination_port c)) = true)
    by apply String.eqb_refl.
  repeat split.
  - unfold test, _evaluate_condition, convert_expected. simpl.
    rewrite to_int_of_int. simpl. rewrite Heq. reflexivity.
  - unfold test, _evaluate_condition, convert_expected. simpl.
    rewrite to_int_of_int. simpl. rewrite Heq. reflexivity.
  - unfold test. rewrite Hge. f_equal. apply Z.geb_le. lia.
  - unfold test. rewrite Hle. f_equal. apply Z.leb_le. lia.
  - unfold test. rewrite Hgt. f_equal. rewrite Z.gtb_ltb. apply Z.ltb_irrefl.
  - unfold test. rewrite Hlt. f_equal. apply Z.ltb_irrefl.
Qed.

(** X15.  On the two addresses and on the protocol, [==] is equality of the
    field with the literal as strings, character for character, [!=] its
    negation, and the four other operators follow the order of strings: no
    address is parsed and no case is folded. *)
Theorem text_conditions_compare_strings
  (c : ConnectionRequest) (f s literal : string) :
  (f = "source_ip" /\ s = source_ip c)
  \/ (f = "destination_ip" /\ s = destination_ip c)
  \/ (f = "protocol" /\ s = Protocol_value (protocol c)) ->
  let test op := evaluate_condition c
                   {| field := f; operator := op; value := literal |} in
  test EQ = Ok (String.eqb s literal)
  /\ test NE = Ok (negb (String.eqb s literal))
  /\ test LT = Ok (String.ltb s literal)
  /\ test LE = Ok (String.leb s literal)
  /\ test GT = Ok (String.ltb literal s)
  /\ test GE = Ok (String.leb literal s).
Proof.
  intros H test.
  destruct (ordering_on_text_is_lexicographic other_attr model_str c f s literal H)
    as (Hgt & Hlt & Hge & Hle).
  assert (Hflip : String.compare literal s = CompOpp (String.compare s literal))
    by apply String.compare_antisym.
  split; [|split; [|split; [exact Hlt|split; [exact Hle|split]]]].
  - destruct H as [[-> ->]|[[-> ->]|[-> ->]]]; reflexivity.
  - destruct H as [[-> ->]|[[-> ->]|[-> ->]]]; reflexivity.
  - unfold test. rewrite Hgt. unfold String.ltb. rewrite Hflip.
    destruct (String.compare s literal); reflexivity.
  - unfold test. rewrite Hge. unfold String.leb. rewrite Hflip.
    destruct (String.compare s literal); reflexivity.
Qed.

(** X16.  For one field and one literal, [==] and [!=] both return, and
    never both true; they are both false exactly when the field yields no
    value or the literal cannot be converted.  So [!=] is the negation of
    [==] only where both values exist. *)
Theorem eq_and_ne_both_false_iff_no_value
  (c : ConnectionRequest) (f literal : string) :
  let eq := {| field := f; operator := EQ; value := literal |} in
  let ne := {| field := f; operator := NE; value := literal |} in
  exists b b' : bool,
    evaluate_condition c eq = Ok b
    /\ evaluate_condition c ne = Ok b'
    /\ (b = true -> b' = false)
    /\ (b = false /\ b' = false
        <-> get_field_value c f = VNone \/ convert_expected eq = None).
Proof.
  intros eq ne. unfold _evaluate_condition.
  change (convert_expected ne) with (convert_expected eq).
  change (field eq) with f. change (field ne) with f.
  change (operator eq) with EQ. change (operator ne) with NE.
  destruct (convert_expected eq) as [e|].
  - destruct (get_field_value c f) eqn:Ha;
      try (eexists _, _; split; [reflexivity|]; split; [reflexivity|];
           match goal with
           | |- context [String.eqb ?a ?b] => destruct (String.eqb a b)
           end; simpl;
           (split; [congruence|]);
           (split; [intros [? ?]; congruence|intros [?|?]; congruence])).
    exists false, false. repeat split; auto.
  - exists false, false.
    destruct (get_field_value c f); repeat split; auto.
Qed.

(** X17.  The outcome of a policy is that of its first condition that is not
    true: once a condition is false the policy does not match and the
    conditions after it are not evaluated, even those that would raise; and
    an exception is that of the first condition that raises, provided the
    conditions before it are true. *)
Theorem first_condition_not_true_decides
  (c : ConnectionRequest) (p : Policy)
  (before after : list PolicyCondition) (cond : PolicyCondition) :
  conditions p = (before ++ cond :: after)%list ->
  Forall (fun x => evaluate_condition c x = Ok true) before ->
  evaluate_condition c cond <> Ok true ->
  matches_policy c p = evaluate_condition c cond.
Proof.
  intros Hc Hbefore Hcond. unfold _matches_policy.
  rewrite Hc, py_all_app by exact Hbefore. simpl.
  destruct (evaluate_condition c cond) as [[|]|e]; [contradiction|reflexivity..].
Qed.

(** X18.  The scan stops at the first policy that matches: when the
    policies before it were evaluated and did not match, it is returned
    whatever follows it in the store, policies that would raise
    included. *)
Theorem match_ends_the_scan
  (store : PolicyStore.t) (c : ConnectionRequest)
  (before after : list Policy) (p : Policy) :
  PolicyStore.get_all store = (before ++ p :: after)%list ->
  Forall (fun q => matches_policy c q = Ok false) before ->
  matches_policy c p = Ok true ->
  engine_evaluate store c = Ok (Some p).
Proof.
  intros Hall Hbefore Hp. unfold evaluate. rewrite Hall, evaluate_loop_app.
  apply evaluate_loop_None in Hbefore. rewrite Hbefore. simpl. rewrite Hp.
  reflexivity.
Qed.

(** X19.  The nested path [protocol.value], which the docstring of
    [_get_field_value] gives as its example, yields what the plain field
    [protocol] yields, and a condition on it has the outcome of the same
    condition on [protocol], for every operator and literal. *)
Theorem protocol_value_path_is_protocol
  (c : ConnectionRequest) (op : Operator) (literal : string) :
  get_field_value c "protocol.value" = get_field_value c "protocol"
  /\ evaluate_condition c {| field := "protocol.value"; operator := op; value := literal |}
     = evaluate_condition c {| field := "protocol"; operator := op; value := literal |}.
Proof. split; reflexivity. Qed.

End EngineExtras.

(** ** The text of a timestamp *)

Lemma zero_pad_length (width : nat) (bound : Z) (n : Z) :
  forallb (fun k => Nat.eqb (String.length (PyStr.zero_pad width (Z.of_nat k))) width)
    (seq 0 (Z.to_nat bound)) = true ->
  (0 <= n < bound)%Z ->
  String.length (PyStr.zero_pad width n) = width.
Proof.
  intros Hall Hn. rewrite forallb_forall in Hall.
  specialize (Hall (Z.to_nat n)). rewrite Z2Nat.id in Hall by lia.
  apply Nat.eqb_eq, Hall, in_seq. lia.
Qed.

Lemma zero_pad_4_length (n : Z) :
  (0 <= n <= 9999)%Z -> String.length (PyStr.zero_pad 4 n) = 4%nat.
Proof.
  intros H. apply (zero_pad_length 4 10000%Z); [vm_compute; reflexivity|lia].
Qed.

Lemma zero_pad_2_length (n : Z) :
  (0 <= n <= 99)%Z -> String.length (PyStr.zero_pad 2 n) = 2%nat.
Proof.
  intros H. apply (zero_pad_length 2 100%Z); [vm_compute; reflexivity|lia].
Qed.

Lemma get_after_char (n : nat) (ch : ascii) (s : string) :
  String.get (S n) (String ch EmptyString ++ s) = String.get n s.
Proof. reflexivity. Qed.

Lemma get_after_prefix (a s : string) (n m : nat) :
  m = (n + String.length a)%nat -> String.get m (a ++ s) = String.get n s.
Proof. intros ->. symmetry. apply append_correct2. Qed.

(** The eleventh character of the text of a date of the calendar is the
    space between the date and the time. *)
Lemma datetime_str_separator (t : datetime) :
  calendar_date t -> String.get 10 (PyDatetime.str t) = Some " "%char.
Proof.
  intros (Hy & Hm & Hd). unfold PyDatetime.str.
  pose proof (zero_pad_4_length (year t) ltac:(lia)) as Ly.
  pose proof (zero_pad_2_length (month t) ltac:(lia)) as Lm.
  pose proof (zero_pad_2_length (day t) ltac:(lia)) as Ld.
  rewrite (get_after_prefix _ _ 6 10) by (rewrite Ly; reflexivity).
  rewrite get_after_char.
  rewrite (get_after_prefix _ _ 3 5) by (rewrite Lm; reflexivity).
  rewrite get_after_char.
  rewrite (get_after_prefix _ _ 0 2) by (rewrite Ld; reflexivity).
  reflexivity.
Qed.

(** X20.  [timestamp == literal] compares the literal with [str()] of the
    datetime, which separates date and time by a space.  A literal whose
    eleventh character is not a space, such as the ISO form with a [T] in
    which the API receives timestamps, therefore never equals the timestamp
    of a connection: [==] is false and [!=] true, whatever the instant. *)
Theorem timestamp_never_equals_literal_without_space
  (other_attr : pyval -> string -> option pyval)
  (model_str : ConnectionRequest -> string)
  (c : ConnectionRequest) (literal : string) :
  calendar_date (timestamp c) ->
  String.get 10 literal <> Some " "%char ->
  _evaluate_condition other_attr model_str c
    {| field := "timestamp"; operator := EQ; value := literal |} = Ok false
  /\ _evaluate_condition other_attr model_str c
       {| field := "timestamp"; operator := NE; value := literal |} = Ok true.
Proof.
  intros Hdate Hlit.
  assert (Hne : String.eqb (PyDatetime.str (timestamp c)) literal = false).
  { apply String.eqb_neq. intros Heq. apply Hlit. rewrite <- Heq.
    apply datetime_str_separator, Hdate. }
  unfold _evaluate_condition. simpl. rewrite Hne. split; reflexivity.
Qed.

(** ** The further properties at concrete inputs *)

Lemma store_of_keyed (policies : list Policy) : keyed (store_of policies).
Proof.
  unfold store_of. generalize keyed_init. generalize PolicyStore.init.
  induction policies as [|p ps IH]; simpl; intros store H; [assumption|].
  apply IH, keyed_add, H.
Qed.

(** Decides a closed proposition by computation. *)
Ltac by_decision :=
  match goal with
  | |- ?P => apply (bool_decide_unpack P); vm_compute; exact I
  end.

Lemma delete_present_witness :
  PolicyStore.delete (store_of [udp_only; allow_443; catch_all_policy]) "allow-443"
  = (store_of [udp_only; catch_all_policy], true)
  /\ PolicyStore.get_all
       (fst (PolicyStore.delete (store_of [udp_only; allow_443; catch_all_policy])
               "allow-443"))
     = [udp_only; catch_all_policy].
Proof.
  destruct (delete_present (store_of [udp_only; allow_443; catch_all_policy])
              "allow-443" 1%nat (store_of_wf _) eq_refl)
    as (_ & _ & _ & Hall).
  split; [reflexivity|]. rewrite Hall. reflexivity.
Defined.

Lemma add_twice_last_wins_witness :
  PolicyStore.get_all
    (PolicyStore.add (PolicyStore.add (store_of [udp_only]) allow_443)
       allow_443_replacement)
  = [udp_only; allow_443_replacement].
Proof.
  rewrite (add_twice_last_wins (store_of [udp_only]) allow_443 allow_443_replacement
             eq_refl).
  reflexivity.
Defined.

Lemma readd_after_delete_goes_last_witness :
  PolicyStore.get_all
    (PolicyStore.add
       (fst (PolicyStore.delete (store_of [allow_443; udp_only]) "allow-443"))
       allow_443_replacement)
  = [udp_only; allow_443_replacement].
Proof.
  etransitivity;
    [exact (readd_after_delete_goes_last (store_of [allow_443; udp_only])
              allow_443_replacement (store_of_wf _) (store_of_keyed _))
    |reflexivity].
Defined.

Lemma get_all_keeps_insertion_order_witness :
  PolicyStore.get_all (store_of [udp_only; allow_443; catch_all_policy])
  = [udp_only; allow_443; catch_all_policy].
Proof.
  apply get_all_keeps_insertion_order. by_decision.
Defined.

Lemma delete_policy_not_found_iff_absent_witness :
  delete_policy (stores_of [udp_only; allow_443]) "nonexistent" = None
  /\ delete_policy (stores_of [udp_only; allow_443]) "udp-only"
     = Some (stores_of [allow_443]).
Proof.
  destruct (delete_policy_not_found_iff_absent (stores_of [udp_only; allow_443])
              "nonexistent" (store_of_wf _) (store_of_keyed _)) as [Hiff _].
  split; [apply Hiff; reflexivity|reflexivity].
Defined.

Lemma submit_then_get_connection_witness :
  exists resp st' detail,
    submit_connection no_other_attr opaque_model_str (stores_of [allow_443])
      "c-4" 0.25 sample_connection = Ok (resp, st')
    /\ get_connection st' "c-4" = Some detail
    /\ detail_destination_port detail = 443%Z
    /\ decision detail = ALLOW
    /\ matched_policy detail = Some "allow-443".
Proof.
  destruct (submit_then_get_connection no_other_attr opaque_model_str
              (stores_of [allow_443]) "c-4" 0.25 sample_connection
              (Some allow_443) eq_refl)
    as (resp & st' & detail & Hsub & _ & Hget & _ & _ & _ & Hport & _ & _
        & Hdec & Hmatch & _).
  exists resp, st', detail. split; [exact Hsub|]. split; [exact Hget|].
  split; [exact Hport|].
  unfold submit_connection in Hsub. simpl in Hsub. injection Hsub as <- _.
  split; [rewrite Hdec|rewrite Hmatch]; reflexivity.
Defined.

Lemma high_score_never_allows_witness :
  exists resp st',
    submit_connection no_other_attr opaque_model_str (stores_of [allow_443])
      "c-5" 0.95 sample_connection = Ok (resp, st')
    /\ response_decision resp = ALERT.
Proof.
  eexists _, _. split; [reflexivity|].
  match goal with
  | |- response_decision ?r = _ =>
      pose proof (high_score_never_allows no_other_attr opaque_model_str
                    (stores_of [allow_443]) "c-5" 0.95 sample_connection
                    r _ eq_refl eq_refl) as [Hno _]
  end.
  reflexivity.
Defined.

Lemma new_policy_is_consulted_last_witness :
  evaluate no_other_attr opaque_model_str
    (PolicyStore.add (store_of [udp_only]) allow_443) sample_connection
  = Ok (Some allow_443)
  /\ evaluate no_other_attr opaque_model_str
       (PolicyStore.add (store_of [catch_all_policy]) allow_443) sample_connection
     = Ok (Some catch_all_policy).
Proof.
  split.
  - rewrite (new_policy_is_consulted_last no_other_attr opaque_model_str
               (store_of [udp_only]) allow_443 sample_connection)
      by by_decision.
    reflexivity.
  - rewrite (new_policy_is_consulted_last no_other_attr opaque_model_str
               (store_of [catch_all_policy]) allow_443 sample_connection)
      by by_decision.
    reflexivity.
Defined.

Lemma evaluate_returns_first_match_witness :
  evaluate no_other_attr opaque_model_str
    (store_of [udp_only; allow_443; block_tcp]) sample_connection
  = Ok (Some allow_443).
Proof.
  rewrite (evaluate_returns_first_match_on_returning_policies
             no_other_attr opaque_model_str).
  - reflexivity.
  - repeat constructor.
Defined.

Lemma port_conditions_compare_integers_witness :
  cond_on {| field := "destination_port"; operator := EQ; value := " 443 " |} = Ok true
  /\ cond_on {| field := "destination_port"; operator := NE; value := "0443" |}
     = Ok false
  /\ cond_on {| field := "destination_port"; operator := GT; value := "+80" |}
     = Ok true.
Proof.
  destruct (port_conditions_compare_integers no_other_attr opaque_model_str
              sample_connection " 443 " 443 eq_refl) as (Heq & _).
  destruct (port_conditions_compare_integers no_other_attr opaque_model_str
              sample_connection "0443" 443 eq_refl) as (_ & Hne & _).
  destruct (port_conditions_compare_integers no_other_attr opaque_model_str
              sample_connection "+80" 80 eq_refl) as (_ & _ & Hgt & _).
  split; [exact Heq|]. split; [exact Hne|exact Hgt].
Defined.

Lemma text_conditions_compare_strings_witness :
  cond_on {| field := "source_ip"; operator := EQ; value := "192.168.001.100" |}
  = Ok false
  /\ cond_on {| field := "protocol"; operator := EQ; value := "tcp" |} = Ok false
  /\ cond_on {| field := "destination_ip"; operator := GT; value := "9.0.0.1" |}
     = Ok false.
Proof.
  destruct (text_conditions_compare_strings no_other_attr opaque_model_str
              sample_connection "source_ip" "192.168.1.100" "192.168.001.100"
              (or_introl (conj eq_refl eq_refl))) as (Heq & _).
  destruct (text_conditions_compare_strings no_other_attr opaque_model_str
              sample_connection "protocol" "TCP" "tcp"
              (or_intror (or_intror (conj eq_refl eq_refl)))) as (Hproto & _).
  destruct (text_conditions_compare_strings no_other_attr opaque_model_str
              sample_connection "destination_ip" "10.0.0.1" "9.0.0.1"
              (or_intror (or_introl (conj eq_refl eq_refl))))
    as (_ & _ & _ & _ & Hgt & _).
  split; [exact Heq|]. split; [exact Hproto|exact Hgt].
Defined.

Lemma first_condition_not_true_decides_witness :
  _matches_policy no_other_attr opaque_model_str sample_connection shielded_policy
  = Ok false.
Proof.
  rewrite (first_condition_not_true_decides no_other_attr opaque_model_str
             sample_connection shielded_policy [port_is_443] [after_2024]
             protocol_is_udp eq_refl).
  - reflexivity.
  - repeat constructor.
  - discriminate.
Defined.

Lemma match_ends_the_scan_witness :
  evaluate no_other_attr opaque_model_str
    (store_of [udp_only; allow_443; recent_policy]) sample_connection
  = Ok (Some allow_443).
Proof.
  apply (match_ends_the_scan no_other_attr opaque_model_str
           (store_of [udp_only; allow_443; recent_policy]) sample_connection
           [udp_only] [recent_policy] allow_443 eq_refl).
  - repeat constructor.
  - reflexivity.
Defined.

Lemma timestamp_never_equals_literal_without_space_witness :
  cond_on {| field := "timestamp"; operator := EQ; value := "2024-01-15T10:30:00" |}
  = Ok false
  /\ cond_on {| field := "timestamp"; operator := NE; value := "2024-01-15T10:30:00" |}
     = Ok true.
Proof.
  apply (timestamp_never_equals_literal_without_space no_other_attr opaque_model_str
           sample_connection "2024-01-15T10:30:00").
  - unfold calendar_date. simpl. lia.
  - discriminate.
Defined.

(** ** The three outcomes of [evaluate], and [create_policy] on a new
    identifier *)

(** X21.  [evaluate] has three outcomes and each is characterised by the
    list that [get_all] returns: it returns a policy exactly when that
    policy stands at an index, matches, and every policy before it was
    evaluated and did not match; it returns nothing exactly when every
    policy was evaluated and did not match; it raises exactly when a policy
    raises and every policy before it was evaluated and did not match. *)
Theorem evaluate_outcomes
  (other_attr : pyval -> string -> option pyval)
  (model_str : ConnectionRequest -> string)
  (store : PolicyStore.t) (c : ConnectionRequest) :
  let matches := _matches_policy other_attr model_str c in
  let policies := PolicyStore.get_all store in
  (forall p : Policy,
      evaluate other_attr model_str store c = Ok (Some p)
      <-> exists i : nat,
            policies !! i = Some p /\ matches p = Ok true
            /\ forall (j : nat) (q : Policy),
                 policies !! j = Some q -> (j < i)%nat -> matches q = Ok false)
  /\ (evaluate other_attr model_str store c = Ok None
      <-> Forall (fun q => matches q = Ok false) policies)
  /\ (forall e : exn,
        evaluate other_attr model_str store c = Raise e
        <-> exists (i : nat) (q : Policy),
              policies !! i = Some q /\ matches q = Raise e
              /\ forall (j : nat) (r : Policy),
                   policies !! j = Some r -> (j < i)%nat -> matches r = Ok false).
Proof.
  intros matches policies. unfold evaluate. fold policies.
  split; [intros p; apply evaluate_loop_Some|].
  split; [apply evaluate_loop_None|].
  intros e. apply evaluate_loop_Raise.
Qed.

(** X22.  [create_policy] with an identifier that the store does not hold
    returns the policy made of the three fields of the request, puts it at
    the end of [list_policies], makes [get] find it, and leaves the
    connection records as they were. *)
Theorem create_policy_new_id_appends (st : stores) (request : PolicyRequest) :
  request_policy_id request
    ∉ OrderedDict.keys (PolicyStore._policies (policy_store st)) ->
  let policy := fst (create_policy st request) in
  let st' := snd (create_policy st request) in
  policy_id policy = request_policy_id request
  /\ conditions policy = request_conditions request
  /\ action policy = request_action request
  /\ list_policies st' = (list_policies st ++ [policy])%list
  /\ PolicyStore.get (policy_store st') (request_policy_id request) = Some policy
  /\ connection_store st' = connection_store st.
Proof.
  intros Hfresh policy st'. unfold policy, st', create_policy. simpl.
  do 3 (split; [reflexivity|]).
  split; [apply add_new_appends; exact Hfresh|].
  split; [|reflexivity].
  unfold PolicyStore.get, PolicyStore.add. simpl. apply get_setitem_same.
Qed.

Lemma create_policy_new_id_appends_witness :
  list_policies
    (snd (create_policy (stores_of [udp_only])
            {| request_policy_id := "allow-443";
               request_conditions := [port_is_443];
               request_action := ALLOW |}))
  = [udp_only; allow_443].
Proof.
  destruct (create_policy_new_id_appends (stores_of [udp_only])
              {| request_policy_id := "allow-443";
                 request_conditions := [port_is_443];
                 request_action := ALLOW |} ltac:(by_decision))
    as (_ & _ & _ & Hlist & _).
  etransitivity; [exact Hlist|reflexivity].
Defined.
